(** * prewikka/utils/cache.py: the memoization layer

    A shallow embedding of [_Cache], [_memoize] and its three subclasses, and
    of the four decorator classes, followed by the properties of the
    specification that concern them.

    Conventions of the embedding:
    - Python values are the terms of [pyval]; a list stands for every
      unhashable argument, an instance is hashed by identity;
    - [time.time()] reads the field [now] of the environment; times and
      durations are integers (ticks of the clock);
    - a wrapped computation is a transformer of the environment which returns
      a value or raises; it does not reach the cache that memoizes it;
    - the objects that carry a cache attribute are identified by a number, and
      the attribute [getattr(obj, name)] is the slot [(obj, name)]. *)

From stdpp Require Import base option countable gmap strings list.
From Stdlib Require Import ZArith Lia.

Local Open Scope Z_scope.

(** ** Python values *)

#[warnings="-register-all"]
Inductive pyval : Type :=
| VNone
| VInt (n : Z)
| VStr (s : string)
| VObj (id : positive)
| VTuple (xs : list pyval)
| VList (xs : list pyval).

(** [hash(v)]: a list is unhashable, a tuple is hashable when all of its
    components are. *)
Fixpoint hashable (v : pyval) : bool :=
  match v with
  | VNone | VInt _ | VStr _ | VObj _ => true
  | VTuple xs => forallb hashable xs
  | VList _ => false
  end.

Section pyval_ind.
Variable P : pyval → Prop.
Hypothesis HNone : P VNone.
Hypothesis HInt : ∀ n, P (VInt n).
Hypothesis HStr : ∀ s, P (VStr s).
Hypothesis HObj : ∀ id, P (VObj id).
Hypothesis HTuple : ∀ xs, Forall P xs → P (VTuple xs).
Hypothesis HList : ∀ xs, Forall P xs → P (VList xs).

Fixpoint pyval_ind_nested (v : pyval) : P v :=
  let fix go (xs : list pyval) : Forall P xs :=
    match xs with
    | [] => @List.Forall_nil _ P
    | x :: xs' => @List.Forall_cons _ P x xs' (pyval_ind_nested x) (go xs')
    end in
  match v with
  | VNone => HNone
  | VInt n => HInt n
  | VStr s => HStr s
  | VObj id => HObj id
  | VTuple xs => HTuple xs (go xs)
  | VList xs => HList xs (go xs)
  end.
End pyval_ind.

Definition pyleaf : Type := (unit + Z) + (string + positive).

Fixpoint pyval_to_tree (v : pyval) : gen_tree pyleaf :=
  match v with
  | VNone => GenLeaf (inl (inl tt))
  | VInt n => GenLeaf (inl (inr n))
  | VStr s => GenLeaf (inr (inl s))
  | VObj id => GenLeaf (inr (inr id))
  | VTuple xs => GenNode 0 (List.map pyval_to_tree xs)
  | VList xs => GenNode 1 (List.map pyval_to_tree xs)
  end.

Fixpoint tree_to_pyval (t : gen_tree pyleaf) : pyval :=
  match t with
  | GenLeaf (inl (inl _)) => VNone
  | GenLeaf (inl (inr n)) => VInt n
  | GenLeaf (inr (inl s)) => VStr s
  | GenLeaf (inr (inr id)) => VObj id
  | GenNode 0 ts => VTuple (List.map tree_to_pyval ts)
  | GenNode _ ts => VList (List.map tree_to_pyval ts)
  end.

Lemma tree_to_pyval_to_tree (v : pyval) : tree_to_pyval (pyval_to_tree v) = v.
Proof.
  induction v as [| | | |xs IH|xs IH] using pyval_ind_nested; simpl; try done.
  - f_equal. induction IH as [|x xs' Hx _ IHxs]; simpl; [done|]. by rewrite Hx, IHxs.
  - f_equal. induction IH as [|x xs' Hx _ IHxs]; simpl; [done|]. by rewrite Hx, IHxs.
Qed.

#[global] Instance pyval_to_tree_inj : Inj (=) (=) pyval_to_tree.
Proof.
  intros v w Hvw.
  rewrite <- (tree_to_pyval_to_tree v), <- (tree_to_pyval_to_tree w).
  by rewrite Hvw.
Qed.

#[global] Instance pyval_eq_dec : EqDecision pyval.
Proof.
  intros v w. destruct (decide (pyval_to_tree v = pyval_to_tree w)) as [Heq|Hne].
  - left. by apply pyval_to_tree_inj.
  - right. intros ->. by apply Hne.
Defined.

#[global] Instance pyval_countable : Countable pyval :=
  inj_countable' pyval_to_tree tree_to_pyval tree_to_pyval_to_tree.

(** ** Exceptions, outcomes, the environment *)

Inductive exn_class : Type := TypeError | KeyError | ValueError | RuntimeError.

Record exn : Type := Exn { exn_cls : exn_class; exn_msg : string }.

Definition is_TypeError (e : exn) : bool :=
  match exn_cls e with TypeError => true | _ => false end.

(** A Python call returns a value or raises. *)
Inductive outcome (A : Type) : Type :=
| Return (a : A)
| Raise (e : exn).
Arguments Return {A} a.
Arguments Raise {A} e.

(** What a wrapped computation can read and write: the clock read by
    [time.time()] and the data attributes of the objects. *)
Record Env : Type := MkEnv {
  now : Z;
  attrs : gmap (positive * string) pyval
}.

Definition kwargs_t : Type := list (string * pyval).

(** A Python function: its [__name__] and its body. *)
Record pyfunc : Type := PyFunc {
  __name__ : string;
  body : list pyval → kwargs_t → Env → outcome pyval * Env
}.

(** The observable events: an invocation of a wrapped computation, and a
    message given to [env.log.critical], kept as the three values that the
    source formats into it. *)
Inductive event : Type :=
| Called (name : string) (args : list pyval) (kwargs : kwargs_t)
| Logged (name : string) (key : pyval) (e : exn).

Record World : Type := MkWorld {
  env : Env;
  trace : list event
}.

Definition is_call (ev : event) : bool :=
  match ev with Called _ _ _ => true | Logged _ _ _ => false end.

Definition is_log (ev : event) : bool := negb (is_call ev).

Definition calls (tr : list event) : nat := length (filter is_call tr).
Definition warnings (tr : list event) : nat := length (filter is_log tr).

(** The call of [f] on the positional arguments [args] and the keyword
    arguments [kwargs]; the invocation is recorded in the trace. *)
Definition call (f : pyfunc) (args : list pyval) (kwargs : kwargs_t) (w : World)
  : outcome pyval * World :=
  let '(r, e) := body f args kwargs (env w) in
  (r, MkWorld e (trace w ++ [Called (__name__ f) args kwargs])).

(** [env.log.critical] on the message built from the name of the computation,
    the key and the exception. *)
Definition log_critical (name : string) (key : pyval) (e : exn) (w : World) : World :=
  MkWorld (env w) (trace w ++ [Logged name key e]).

(** ** Dictionaries keyed by Python values *)

Definition unhashable : exn := Exn TypeError "unhashable type".

(** [d.get(key, missing)] *)
Definition dict_get {V : Type} (d : gmap pyval V) (key : pyval) : outcome (option V) :=
  if hashable key then Return (d !! key) else Raise unhashable.

(** [d[key]] *)
Definition dict_getitem {V : Type} (d : gmap pyval V) (key : pyval) : outcome V :=
  if hashable key then
    match d !! key with
    | Some v => Return v
    | None => Raise (Exn KeyError "")
    end
  else Raise unhashable.

(** [d[key] = v] *)
Definition dict_setitem {V : Type} (d : gmap pyval V) (key : pyval) (v : V)
  : outcome (gmap pyval V) :=
  if hashable key then Return (<[key := v]> d) else Raise unhashable.

(** ** class _Cache *)

Record _Cache : Type := Mk_Cache {
  _cache : gmap pyval pyval;
  _cached_func : pyfunc;
  _hits : nat;
  _misses : nat;
  _duration : option Z;
  _times : gmap pyval Z
}.

(** [_Cache.__init__(self, func, duration=None)] *)
Definition _Cache__init__ (func : pyfunc) (duration : option Z) : _Cache :=
  {| _cache := ∅; _cached_func := func; _hits := 0; _misses := 0;
     _duration := duration; _times := ∅ |}.

Definition with_cache (self : _Cache) (d : gmap pyval pyval) : _Cache :=
  {| _cache := d; _cached_func := _cached_func self; _hits := _hits self;
     _misses := _misses self; _duration := _duration self; _times := _times self |}.

Definition with_times (self : _Cache) (t : gmap pyval Z) : _Cache :=
  {| _cache := _cache self; _cached_func := _cached_func self; _hits := _hits self;
     _misses := _misses self; _duration := _duration self; _times := t |}.

Definition with_hits (self : _Cache) (n : nat) : _Cache :=
  {| _cache := _cache self; _cached_func := _cached_func self; _hits := n;
     _misses := _misses self; _duration := _duration self; _times := _times self |}.

Definition with_misses (self : _Cache) (n : nat) : _Cache :=
  {| _cache := _cache self; _cached_func := _cached_func self; _hits := _hits self;
     _misses := n; _duration := _duration self; _times := _times self |}.

(** [_Cache._set(self, key, value)]: the two stores, in the order of the
    source, the second with the clock read at that point. *)
Definition _set (self : _Cache) (key value : pyval) (w : World) : outcome pyval * _Cache :=
  match dict_setitem (_cache self) key value with
  | Raise e => (Raise e, self)
  | Return d =>
    let self1 := with_cache self d in
    match dict_setitem (_times self1) key (now (env w)) with
    | Raise e => (Raise e, self1)
    | Return t => (Return value, with_times self1 t)
    end
  end.

(** The key of a call: [(args, tuple(kwargs.items()))]. *)
Definition kwargs_items (kwargs : kwargs_t) : list pyval :=
  List.map (λ kv, VTuple [VStr (fst kv); snd kv]) kwargs.

Definition call_key (args : list pyval) (kwargs : kwargs_t) : pyval :=
  VTuple [VTuple args; VTuple (kwargs_items kwargs)].

(** The condition of the [if] of [_get], for a value found in [_cache]:
    [not self._duration or self._times[key] + self._duration > time.time()],
    evaluated from left to right; [None] and zero are the false durations. *)
Definition fresh (self : _Cache) (key : pyval) (w : World) : outcome bool :=
  match _duration self with
  | None => Return true
  | Some d =>
    if d =? 0 then Return true
    else match dict_getitem (_times self) key with
         | Raise e => Raise e
         | Return t => Return (now (env w) <? t + d)
         end
  end.

(** The body of the [try] of [_get]. *)
Definition _get_try (self : _Cache) (key : pyval) (args : list pyval) (kwargs : kwargs_t)
    (w : World) : outcome pyval * _Cache * World :=
  let miss :=
    let self1 := with_misses self (_misses self + 1) in
    let '(r, w1) := call (_cached_func self1) args kwargs w in
    match r with
    | Raise e => (Raise e, self1, w1)
    | Return v => let '(r', self2) := _set self1 key v w1 in (r', self2, w1)
    end in
  match dict_get (_cache self) key with
  | Raise e => (Raise e, self, w)
  | Return None => miss
  | Return (Some value) =>
    match fresh self key w with
    | Raise e => (Raise e, self, w)
    | Return true => (Return value, with_hits self (_hits self + 1), w)
    | Return false => miss
    end
  end.

(** [_Cache._get]: the [try] and its [except TypeError] clause, which logs and
    calls the computation, outside any handler. *)
Definition _get (self : _Cache) (args : list pyval) (kwargs : kwargs_t) (w : World)
  : outcome pyval * _Cache * World :=
  let key := call_key args kwargs in
  match _get_try self key args kwargs w with
  | (Raise e, self1, w1) =>
    if is_TypeError e then
      let w2 := log_critical (__name__ (_cached_func self1)) key e w1 in
      let '(r, w3) := call (_cached_func self1) args kwargs w2 in
      (r, self1, w3)
    else (Raise e, self1, w1)
  | ok => ok
  end.

(** [_Cache.clear(self)] *)
Definition clear (self : _Cache) : _Cache := with_cache self ∅.

(** [_Cache.infos(self)]: [(hits, misses, size)] *)
Definition infos (self : _Cache) : nat * nat * nat :=
  (_hits self, _misses self, size (_cache self)).

(** ** The memoizers: _memoize and its subclasses *)

Inductive memo_class : Type :=
| K_memoize
| K_memoize_property
| K_request_memoize
| K_request_memoize_property.

(** The attributes of a memoizer. [_set_func] is the setter of a property; the
    two classes that are not properties never register one. *)
Record memoizer : Type := Memoizer {
  klass : memo_class;
  func : pyfunc;
  cache_objname : string;
  duration : option Z;
  _set_func : option pyfunc
}.

(** The address of a cache: the object that carries it and the name of the
    attribute. *)
Abbreviation slot := (positive * string)%type.

(** The state of the program: the world of the computations, the cache
    attributes of the objects, and the object [env.request.cache]. *)
Record State : Type := MkState {
  world : World;
  slots : gmap slot _Cache;
  request_cache : positive
}.

Definition with_world (st : State) (w : World) : State :=
  MkState w (slots st) (request_cache st).

Definition with_slot (st : State) (a : slot) (c : _Cache) : State :=
  MkState (world st) (<[a := c]> (slots st)) (request_cache st).

(** [_memoize.__init__] and [_memoize_property.__init__] *)
Definition _memoize__init__ (k : memo_class) (f : pyfunc) (name : string) (d : option Z)
  : memoizer :=
  Memoizer k f name d None.

(** [_memoize_property.setter] *)
Definition setter (self : memoizer) (f : pyfunc) : memoizer :=
  Memoizer (klass self) (func self) (cache_objname self) (duration self) (Some f).

(** [_memoize._setup_cache(self, obj)]: the cache found under the attribute, or
    a new one, attached to the object. The result is the cache and its
    address. *)
Definition _memoize_setup_cache (self : memoizer) (obj : positive) (st : State)
  : slot * _Cache * State :=
  let a := (obj, cache_objname self) in
  match slots st !! a with
  | Some cache => (a, cache, st)
  | None =>
    let cache := _Cache__init__ (func self) (duration self) in
    (a, cache, with_slot st a cache)
  end.

(** [_setup_cache] as the class of [self] resolves it: the request-bound
    classes override it and pass [env.request.cache] for the object. *)
Definition _setup_cache (self : memoizer) (obj : positive) (st : State)
  : slot * _Cache * State :=
  match klass self with
  | K_request_memoize | K_request_memoize_property =>
    _memoize_setup_cache self (request_cache st) st
  | K_memoize | K_memoize_property =>
    _memoize_setup_cache self obj st
  end.

(** [_memoize.__call__]: the lookup is made on the object followed by the
    arguments. *)
Definition __call__ (self : memoizer) (obj : positive) (args : list pyval)
    (kwargs : kwargs_t) (st : State) : outcome pyval * State :=
  let '(a, cache, st1) := _setup_cache self obj st in
  let '(r, cache', w') := _get cache (VObj obj :: args) kwargs (world st1) in
  (r, with_slot (with_world st1 w') a cache').

(** [__get__]: a property calls the partial application at once, with no
    argument; the two other classes return it. *)
Definition _memoize_property__get__ (self : memoizer) (obj : positive) (st : State)
  : outcome pyval * State :=
  __call__ self obj [] [] st.

Definition _memoize__get__ (self : memoizer) (obj : positive)
  : list pyval → kwargs_t → State → outcome pyval * State :=
  __call__ self obj.

(** [_memoize_property.__set__] *)
Definition __set__ (self : memoizer) (obj : positive) (value : pyval) (st : State)
  : outcome unit * State :=
  match _set_func self with
  | None => (Return tt, st)
  | Some set_func =>
    let '(r, w1) := call set_func [VObj obj; value] [] (world st) in
    match r with
    | Raise e => (Raise e, with_world st w1)
    | Return _ =>
      let '(a, cache, st1) := _setup_cache self obj (with_world st w1) in
      let '(r', cache') := _set cache (VTuple [VObj obj]) value (world st1) in
      (match r' with Raise e => Raise e | Return _ => Return tt end,
       with_slot st1 a cache')
    end
  end.

(** ** The decorators *)

(** The arguments of the construction of a decorator: the name, and the
    duration when the call gives one ([Some None] is an explicit [None]). *)
Record ctor_args : Type := CtorArgs {
  arg_name : string;
  arg_duration : option (option Z)
}.

(** A decorator object. [deco_duration] is its attribute [duration], which
    the request-bound classes do not have. *)
Record decorator : Type := Decorator {
  deco_class : memo_class;
  name : string;
  deco_duration : option (option Z)
}.

Definition unexpected_argument : exn := Exn TypeError "__init__() got an unexpected argument".

(** [memoize.__init__(self, name, duration=None)] *)
Definition memoize (a : ctor_args) : outcome decorator :=
  Return (Decorator K_memoize (arg_name a) (Some (default None (arg_duration a)))).

(** [memoize_property.__init__(self, name, duration=None)] *)
Definition memoize_property (a : ctor_args) : outcome decorator :=
  Return (Decorator K_memoize_property (arg_name a) (Some (default None (arg_duration a)))).

(** [request_memoize.__init__(self, name)]: there is no parameter to bind a
    duration to, the call that gives one raises. *)
Definition request_memoize (a : ctor_args) : outcome decorator :=
  match arg_duration a with
  | None => Return (Decorator K_request_memoize (arg_name a) None)
  | Some _ => Raise unexpected_argument
  end.

(** [request_memoize_property.__init__(self, name)] *)
Definition request_memoize_property (a : ctor_args) : outcome decorator :=
  match arg_duration a with
  | None => Return (Decorator K_request_memoize_property (arg_name a) None)
  | Some _ => Raise unexpected_argument
  end.

(** [__call__(self, func)] of the four decorators: the first two pass
    [duration=self.duration], the request-bound ones pass the function and the
    name only, and the memoizer takes the default [None]. *)
Definition decorate (self : decorator) (f : pyfunc) : memoizer :=
  match deco_class self with
  | K_memoize | K_memoize_property =>
    _memoize__init__ (deco_class self) f (name self) (default None (deco_duration self))
  | K_request_memoize | K_request_memoize_property =>
    _memoize__init__ (deco_class self) f (name self) None
  end.

(** * The vocabulary of the properties *)

Definition with_duration (self : _Cache) (d : option Z) : _Cache :=
  {| _cache := _cache self; _cached_func := _cached_func self; _hits := _hits self;
     _misses := _misses self; _duration := d; _times := _times self |}.

(** The world after an invocation of the computation of [self] that ends in
    the environment [e]. *)
Definition invoked (self : _Cache) (args : list pyval) (kwargs : kwargs_t) (w : World)
    (e : Env) : World :=
  MkWorld e (trace w ++ [Called (__name__ (_cached_func self)) args kwargs]).

(** The cache after a miss that stores [v] under [key] while the clock shows
    [t]. *)
Definition stored (self : _Cache) (key v : pyval) (t : Z) : _Cache :=
  {| _cache := <[key := v]> (_cache self);
     _cached_func := _cached_func self;
     _hits := _hits self;
     _misses := _misses self + 1;
     _duration := _duration self;
     _times := <[key := t]> (_times self) |}.

(** The value is absent, or present and no longer fresh. *)
Definition misses_at (self : _Cache) (key : pyval) (w : World) : Prop :=
  _cache self !! key = None ∨ fresh self key w = Return false.

(** Every key of [_cache] has a timestamp. *)
Definition keys_inv (self : _Cache) : Prop :=
  ∀ k, is_Some (_cache self !! k) → is_Some (_times self !! k).

(** The two mappings have the same keys. *)
Definition same_keys (self : _Cache) : Prop :=
  ∀ k, is_Some (_cache self !! k) ↔ is_Some (_times self !! k).

(** The TTL window of a value stored at [stored_at], for a lookup made when
    the clock shows [t]: no duration, a zero duration, or [t] before the end
    of the duration. *)
Definition within_ttl (d : option Z) (stored_at t : Z) : Prop :=
  match d with
  | None => True
  | Some d => d = 0 ∨ t < stored_at + d
  end.

(** A sequence of lookups with the same arguments. Between two lookups the
    environment changes freely: the lookup number [i] runs in the environment
    number [i] of [envs]. The result lists, for each lookup, its outcome and
    the two counters after it; the trace is threaded through. *)
Fixpoint lookups (self : _Cache) (args : list pyval) (kwargs : kwargs_t)
    (envs : list Env) (tr : list event)
  : list (outcome pyval * nat * nat) * _Cache * list event :=
  match envs with
  | [] => ([], self, tr)
  | e :: envs' =>
    let '(r, self1, w1) := _get self args kwargs (MkWorld e tr) in
    let '(rs, self2, tr2) := lookups self1 args kwargs envs' (trace w1) in
    ((r, _hits self1, _misses self1) :: rs, self2, tr2)
  end.

(** A sequence of lookups in one cache, each with its own arguments and in its
    own environment; the trace is threaded through. The result is the cache
    and the trace after the last lookup. *)
Fixpoint run_lookups (self : _Cache) (reqs : list (list pyval * kwargs_t * Env))
    (tr : list event) : _Cache * list event :=
  match reqs with
  | [] => (self, tr)
  | (args, kwargs, e) :: reqs' =>
    let '(_, self1, w1) := _get self args kwargs (MkWorld e tr) in
    run_lookups self1 reqs' (trace w1)
  end.

(** What a run of hits reports: the value, a counter of hits that grows by
    one at each lookup, the counter of misses [m]. *)
Fixpoint hits_from (v : pyval) (h m : nat) (n : nat) : list (outcome pyval * nat * nat) :=
  match n with
  | O => []
  | S n' => (Return v, S h, m) :: hits_from v (S h) m n'
  end.

(** The request-bound classes. *)
Definition request_bound (k : memo_class) : bool :=
  match k with
  | K_request_memoize | K_request_memoize_property => true
  | K_memoize | K_memoize_property => false
  end.

(** The cache that [_memoize._setup_cache] finds at the address [a], or the
    one that it creates there. *)
Definition entry_of (self : memoizer) (st : State) (a : slot) : _Cache :=
  default (_Cache__init__ (func self) (duration self)) (slots st !! a).

(** The computation returns, whatever the environment. *)
Definition returns_on (f : pyfunc) (args : list pyval) (kwargs : kwargs_t) : Prop :=
  ∀ e, ∃ v e', body f args kwargs e = (Return v, e').

(** What a decorator attaches: built from the arguments [a] by the constructor
    [front], it turns [f] into a memoizer of class [k] that carries [f], the
    name and the duration [ttl], and the cache that this memoizer creates where
    none is attached yet is a new cache for [f] with the duration [ttl]. *)
Definition attaches (front : ctor_args → outcome decorator) (a : ctor_args)
    (k : memo_class) (f : pyfunc) (ttl : option Z) : Prop :=
  ∃ deco,
    front a = Return deco ∧
    decorate deco f = Memoizer k f (arg_name a) ttl None ∧
    ∀ obj st,
      slots st !! (_setup_cache (decorate deco f) obj st).1.1 = None →
      (_setup_cache (decorate deco f) obj st).1.2 = _Cache__init__ f ttl.

(** The address at which a memoizer keeps the cache for a call on [obj]: the
    attribute of [env.request.cache] for the request-bound classes, of [obj]
    for the others. *)
Definition cache_slot (self : memoizer) (obj : positive) (st : State) : slot :=
  (if request_bound (klass self) then request_cache st else obj, cache_objname self).

(** The key under which [__set__] stores the value of a property of [obj]. *)
Definition seed_key (obj : positive) : pyval := VTuple [VObj obj].

(** ** Sample computations *)

Module Sample.

(** [def answer(self): return 42] *)
Definition answer : pyfunc :=
  PyFunc "answer" (λ _ _ e, (Return (VInt 42), e)).

(** A method that fails with a [TypeError] the first time it runs on an
    object and returns 7 afterwards:
    [if not hasattr(self, "seen"): self.seen = 1; raise TypeError(...)]
    [return 7] *)
Definition flaky : pyfunc :=
  PyFunc "flaky" (λ args _ e,
    match args with
    | VObj o :: _ =>
      match attrs e !! (o, "seen") with
      | None => (Raise (Exn TypeError "unsupported operand"),
                 MkEnv (now e) (<[(o, "seen") := VInt 1]> (attrs e)))
      | Some _ => (Return (VInt 7), e)
      end
    | _ => (Raise (Exn TypeError "missing self"), e)
    end).

(** The getter of a property: [return getattr(self, "_x", 3)] *)
Definition get_x : pyfunc :=
  PyFunc "x" (λ args _ e,
    match args with
    | VObj o :: _ => (Return (default (VInt 3) (attrs e !! (o, "_x"))), e)
    | _ => (Raise (Exn TypeError "missing self"), e)
    end).

(** Its setter: [self._x = value] *)
Definition set_x : pyfunc :=
  PyFunc "x" (λ args _ e,
    match args with
    | [VObj o; v] => (Return VNone, MkEnv (now e) (<[(o, "_x") := v]> (attrs e)))
    | _ => (Raise (Exn TypeError "wrong number of arguments"), e)
    end).

(** A method whose result depends on the object: [return self.id] *)
Definition ident : pyfunc :=
  PyFunc "ident" (λ args _ e,
    match args with
    | VObj o :: _ => (Return (VInt (Z.pos o)), e)
    | _ => (Raise (Exn TypeError "missing self"), e)
    end).

(** The world with an empty trace and no attribute, the clock at [t]. *)
Definition at_time (t : Z) : World := MkWorld (MkEnv t ∅) [].

(** The state with no cache attribute; the object 100 is
    [env.request.cache]. *)
Definition fresh_state (t : Z) : State := MkState (at_time t) ∅ 100.

(** A cache of duration 10 in which [answer(1)] was stored at time 0. *)
Definition warm : _Cache :=
  (_get (_Cache__init__ answer (Some 10)) [VInt 1] [] (at_time 0)).1.2.

(** A property [x] with its setter:
    [@memoize_property("x_cache")], then [@x.setter]. *)
Definition prop_x : memoizer :=
  setter (decorate (Decorator K_memoize_property "x_cache" (Some None)) get_x) set_x.

(** [@request_memoize("ident_cache")] on [ident]. *)
Definition req_ident : memoizer :=
  decorate (Decorator K_request_memoize "ident_cache" None) ident.

(** [def boom(self): raise ValueError("boom")] *)
Definition boom : pyfunc :=
  PyFunc "boom" (λ _ _ e, (Raise (Exn ValueError "boom"), e)).

(** A property whose setter refuses every value. *)
Definition prop_ro : memoizer :=
  setter (decorate (Decorator K_memoize_property "ro_cache" (Some None)) get_x) boom.

(** [@memoize("ident_cache")] on [ident]. *)
Definition memo_ident : memoizer :=
  decorate (Decorator K_memoize "ident_cache" (Some None)) ident.

End Sample.

(** * Properties of the cache *)

(** ** The steps of a lookup *)

Lemma _set_hashable (self : _Cache) (k value : pyval) (w : World) :
  hashable k = true →
  _set self k value w =
    (Return value,
     with_times (with_cache self (<[k := value]> (_cache self)))
                (<[k := now (env w)]> (_times self))).
Proof. intros Hk. unfold _set, dict_setitem. by rewrite Hk. Qed.

Section lookup_steps.
Variables (self : _Cache) (args : list pyval) (kwargs : kwargs_t) (w : World).

Let key : pyval := call_key args kwargs.

Lemma _get_hit (value : pyval) :
  hashable key = true →
  _cache self !! key = Some value →
  fresh self key w = Return true →
  _get self args kwargs w = (Return value, with_hits self (_hits self + 1), w).
Proof.
  intros Hk Hv Hf. unfold _get, _get_try, dict_get. fold key.
  by rewrite Hk, Hv, Hf.
Qed.

Lemma _get_try_miss :
  hashable key = true →
  misses_at self key w →
  _get_try self key args kwargs w =
    let self1 := with_misses self (_misses self + 1) in
    let '(r, w1) := call (_cached_func self1) args kwargs w in
    match r with
    | Raise e => (Raise e, self1, w1)
    | Return v => let '(r', self2) := _set self1 key v w1 in (r', self2, w1)
    end.
Proof.
  intros Hk Hm. unfold _get_try, dict_get. rewrite Hk.
  destruct Hm as [Hm|Hm]; [by rewrite Hm|].
  rewrite Hm. by destruct (_cache self !! key).
Qed.

Lemma _get_miss_return (v : pyval) (e : Env) :
  hashable key = true →
  misses_at self key w →
  body (_cached_func self) args kwargs (env w) = (Return v, e) →
  _get self args kwargs w =
    (Return v, stored self key v (now e), invoked self args kwargs w e).
Proof.
  intros Hk Hm Hb. unfold _get. fold key. rewrite (_get_try_miss Hk Hm).
  unfold call. cbn [with_misses _cached_func]. rewrite Hb. by rewrite _set_hashable.
Qed.

(** A computation that raises anything but a [TypeError]: the exception
    leaves [_get], and the two mappings are as they were. *)
Lemma _get_miss_raise (ex : exn) (e : Env) :
  hashable key = true →
  misses_at self key w →
  body (_cached_func self) args kwargs (env w) = (Raise ex, e) →
  is_TypeError ex = false →
  _get self args kwargs w =
    (Raise ex, with_misses self (_misses self + 1), invoked self args kwargs w e).
Proof.
  intros Hk Hm Hb Hex. unfold _get. fold key. rewrite (_get_try_miss Hk Hm).
  unfold call. cbn [with_misses _cached_func]. rewrite Hb. by rewrite Hex.
Qed.

(** A computation that raises a [TypeError] lands in the handler that was
    written for the keys: a message is logged and the computation runs a
    second time, in the environment that its first run left. *)
Lemma _get_miss_TypeError (ex : exn) (e : Env) :
  hashable key = true →
  misses_at self key w →
  body (_cached_func self) args kwargs (env w) = (Raise ex, e) →
  is_TypeError ex = true →
  _get self args kwargs w =
    let '(r, w3) :=
      call (_cached_func self) args kwargs
           (log_critical (__name__ (_cached_func self)) key ex
                         (invoked self args kwargs w e)) in
    (r, with_misses self (_misses self + 1), w3).
Proof.
  intros Hk Hm Hb Hex. unfold _get. fold key. rewrite (_get_try_miss Hk Hm).
  unfold call at 1. cbn [with_misses _cached_func]. rewrite Hb. by rewrite Hex.
Qed.

Lemma _get_unhashable :
  hashable key = false →
  _get self args kwargs w =
    let '(r, w3) :=
      call (_cached_func self) args kwargs
           (log_critical (__name__ (_cached_func self)) key unhashable w) in
    (r, self, w3).
Proof.
  intros Hk. unfold _get, _get_try, dict_get. fold key. by rewrite Hk.
Qed.
End lookup_steps.

(** ** The two mappings go together *)

Lemma keys_inv_init (f : pyfunc) (d : option Z) : keys_inv (_Cache__init__ f d).
Proof. intros k [v Hv]. simpl in Hv. by rewrite lookup_empty in Hv. Qed.

Lemma keys_inv_stored (self : _Cache) (k v : pyval) (t : Z) :
  keys_inv self → keys_inv (stored self k v t).
Proof.
  intros Hinv k'. simpl. destruct (decide (k = k')) as [->|Hne].
  - rewrite !lookup_insert_eq. eauto.
  - rewrite !lookup_insert_ne by done. apply Hinv.
Qed.

Lemma keys_inv_clear (self : _Cache) : keys_inv (clear self).
Proof. intros k [v Hv]. simpl in Hv. by rewrite lookup_empty in Hv. Qed.

(** With the invariant, the test of freshness never fails on a stored key. *)
Lemma fresh_total (self : _Cache) (key : pyval) (w : World) :
  keys_inv self → hashable key = true → is_Some (_cache self !! key) →
  ∃ b, fresh self key w = Return b.
Proof.
  intros Hinv Hk Hv. destruct (Hinv key Hv) as [t Ht].
  unfold fresh, dict_getitem. rewrite Hk, Ht.
  destruct (_duration self) as [d|]; [destruct (d =? 0)|]; eauto.
Qed.

(** ** The window of a stored value *)

Lemma fresh_within_ttl (self : _Cache) (key : pyval) (w : World) (t0 : Z) :
  hashable key = true →
  _times self !! key = Some t0 →
  within_ttl (_duration self) t0 (now (env w)) →
  fresh self key w = Return true.
Proof.
  intros Hk Ht Hw. unfold fresh, dict_getitem. rewrite Hk, Ht.
  unfold within_ttl in Hw. destruct (_duration self) as [d|]; [|done].
  destruct (Z.eqb_spec d 0) as [|Hd]; [done|].
  destruct Hw as [|Hw]; [done|]. f_equal. by apply Z.ltb_lt.
Qed.

(** ** Hits *)

(** C9: a lookup that is a hit returns the stored value and adds one to
    [_hits]; [_cache], [_times] and [_misses] are as before, and so is the
    world. The timestamp is the one of the store, so that every later test of
    freshness gives what it gave before the hit. *)
Theorem C9_hit_changes_only_hits
    (self : _Cache) (args : list pyval) (kwargs : kwargs_t) (w : World) (value : pyval) :
  hashable (call_key args kwargs) = true →
  _cache self !! call_key args kwargs = Some value →
  fresh self (call_key args kwargs) w = Return true →
  ∃ self',
    _get self args kwargs w = (Return value, self', w) ∧
    _cache self' = _cache self ∧
    _times self' = _times self ∧
    _misses self' = _misses self ∧
    _hits self' = (_hits self + 1)%nat ∧
    ∀ w2, fresh self' (call_key args kwargs) w2 = fresh self (call_key args kwargs) w2.
Proof.
  intros Hk Hv Hf. exists (with_hits self (_hits self + 1)).
  split; [by apply _get_hit|]. by repeat split.
Qed.

(** ** Keys that cannot be hashed *)

(** C4: when the key of the call cannot be hashed, the lookup logs one
    message, calls the computation once and gives its outcome as it is; the
    cache is the same object as before, so [infos] is unchanged. *)
Theorem C4_unhashable_falls_back
    (self : _Cache) (args : list pyval) (kwargs : kwargs_t) (w : World) :
  hashable (call_key args kwargs) = false →
  ∃ self' w',
    _get self args kwargs w = (fst (body (_cached_func self) args kwargs (env w)), self', w') ∧
    env w' = snd (body (_cached_func self) args kwargs (env w)) ∧
    trace w' = trace w ++
      [Logged (__name__ (_cached_func self)) (call_key args kwargs) unhashable;
       Called (__name__ (_cached_func self)) args kwargs] ∧
    warnings (trace w') = (warnings (trace w) + 1)%nat ∧
    calls (trace w') = (calls (trace w) + 1)%nat ∧
    self' = self ∧
    infos self' = infos self.
Proof.
  intros Hk. rewrite (_get_unhashable _ _ _ _ Hk). unfold call, log_critical. simpl.
  destruct (body (_cached_func self) args kwargs (env w)) as [r e] eqn:Hb. simpl.
  eexists _, _. split; [reflexivity|]. simpl.
  split; [done|]. split; [by rewrite <- app_assoc|].
  unfold warnings, calls. rewrite !filter_app, !length_app. simpl.
  repeat split; lia.
Qed.

(** ** clear *)

(** C6, as the code has it: [clear] empties [_cache], so that [infos] gives
    the size 0 with the counters of before, every key of [_cache] still has a
    timestamp, and every lookup that follows misses. *)
Theorem C6_clear_empties_results (self : _Cache) :
  _cache (clear self) = ∅ ∧
  infos (clear self) = (_hits self, _misses self, 0%nat) ∧
  _hits (clear self) = _hits self ∧
  _misses (clear self) = _misses self ∧
  keys_inv (clear self) ∧
  ∀ key w, misses_at (clear self) key w.
Proof.
  repeat split; try done; [apply keys_inv_clear|].
  intros key w. left. apply lookup_empty.
Qed.

(** ** The duration *)

Lemma fresh_zero_duration (self : _Cache) (key : pyval) (w : World) :
  _duration self = Some 0 → fresh self key w = Return true.
Proof. intros Hd. unfold fresh. by rewrite Hd. Qed.

Lemma fresh_no_duration (self : _Cache) (key : pyval) (w : World) :
  _duration self = None → fresh self key w = Return true.
Proof. intros Hd. unfold fresh. by rewrite Hd. Qed.

(** C10: with a duration of zero a lookup does what it does with no duration,
    step for step, and a stored value is returned as a hit whatever the clock
    shows. *)
Theorem C10_zero_duration_is_no_duration
    (self : _Cache) (args : list pyval) (kwargs : kwargs_t) (w : World) :
  _duration self = Some 0 →
  _get self args kwargs w =
    (let '(r, c, w') := _get (with_duration self None) args kwargs w in
     (r, with_duration c (Some 0), w')) ∧
  ∀ value,
    hashable (call_key args kwargs) = true →
    _cache self !! call_key args kwargs = Some value →
    _get self args kwargs w = (Return value, with_hits self (_hits self + 1), w).
Proof.
  intros Hd. split.
  - destruct self as [c f h m d t]. simpl in Hd. subst d.
    unfold _get. generalize (call_key args kwargs) as key. intros key.
    unfold _get_try, dict_get, fresh, call, _set, dict_setitem, with_duration.
    simpl. destruct (hashable key); simpl.
    + destruct (c !! key) as [value|]; [reflexivity|].
      destruct (body f args kwargs (env w)) as [[v|ex] e]; simpl; [reflexivity|].
      destruct (is_TypeError ex); [|reflexivity].
      simpl. destruct (body f args kwargs e) as [r' e']. reflexivity.
    + destruct (body f args kwargs (env w)) as [r' e']. reflexivity.
  - intros value Hk Hv. apply _get_hit; [done..|]. by apply fresh_zero_duration.
Qed.

(** C5, as the code has it: with a duration [d] that is not zero, a value
    stored at [t0] is returned as a hit while the clock shows less than
    [t0 + d]; from [t0 + d] on, this instant included, the lookup runs the
    computation, counts a miss and stores the new value with the time that the
    clock shows then. *)
Theorem C5_fresh_before_the_deadline
    (self : _Cache) (args : list pyval) (kwargs : kwargs_t) (w : World)
    (d t0 : Z) (value v' : pyval) (e' : Env) :
  _duration self = Some d →
  d ≠ 0 →
  hashable (call_key args kwargs) = true →
  _cache self !! call_key args kwargs = Some value →
  _times self !! call_key args kwargs = Some t0 →
  body (_cached_func self) args kwargs (env w) = (Return v', e') →
  _get self args kwargs w =
    if now (env w) <? t0 + d
    then (Return value, with_hits self (_hits self + 1), w)
    else (Return v', stored self (call_key args kwargs) v' (now e'),
          invoked self args kwargs w e').
Proof.
  intros Hd Hd0 Hk Hv Ht Hb.
  assert (fresh self (call_key args kwargs) w = Return (now (env w) <? t0 + d)) as Hf.
  { unfold fresh, dict_getitem. rewrite Hd, Hk, Ht.
    by destruct (Z.eqb_spec d 0). }
  destruct (now (env w) <? t0 + d) eqn:Hlt.
  - by apply _get_hit.
  - apply _get_miss_return; [done| |done]. by right.
Qed.

(** ** Computations that raise *)

(** C3, at a computation that raises a [TypeError] on its first run: the
    exception does not reach the caller. The handler of [_get] takes it for a
    key that cannot be hashed, logs it and runs the computation again; the
    caller receives the value of the second run. *)
Theorem C3_TypeError_of_the_computation_is_caught :
  let self := _Cache__init__ Sample.flaky None in
  let w := Sample.at_time 0 in
  hashable (call_key [VObj 1] []) = true ∧
  (body Sample.flaky [VObj 1] [] (env w)).1 = Raise (Exn TypeError "unsupported operand") ∧
  ∃ self' w',
    _get self [VObj 1] [] w = (Return (VInt 7), self', w') ∧
    trace w' =
      [Called "flaky" [VObj 1] [];
       Logged "flaky" (call_key [VObj 1] []) (Exn TypeError "unsupported operand");
       Called "flaky" [VObj 1] []] ∧
    infos self' = (0, 1, 0)%nat.
Proof.
  cbv zeta. split; [reflexivity|]. split; [vm_compute; reflexivity|].
  eexists _, _. split; [vm_compute; reflexivity|]. split; vm_compute; reflexivity.
Qed.

(** ** Repeated lookups *)

Lemma with_hits_same (self : _Cache) : with_hits self (_hits self) = self.
Proof. by destruct self. Qed.

(** A run of lookups of a stored key, all of them within the window. *)
Lemma lookups_hits (args : list pyval) (kwargs : kwargs_t) (v : pyval) (t0 : Z)
    (envs : list Env) :
  ∀ (self : _Cache) (tr : list event),
    hashable (call_key args kwargs) = true →
    _cache self !! call_key args kwargs = Some v →
    _times self !! call_key args kwargs = Some t0 →
    Forall (λ e, within_ttl (_duration self) t0 (now e)) envs →
    lookups self args kwargs envs tr =
      (hits_from v (_hits self) (_misses self) (length envs),
       with_hits self (_hits self + length envs), tr).
Proof.
  induction envs as [|e envs IH]; intros self tr Hk Hv Ht Hw.
  - simpl. by rewrite Nat.add_0_r, with_hits_same.
  - apply Forall_cons in Hw as [He Hw]. cbn [lookups].
    rewrite (_get_hit self args kwargs (MkWorld e tr) v) by
      eauto using fresh_within_ttl.
    cbn [trace]. rewrite IH by done.
    cbn [with_hits _hits _misses length hits_from].
    replace (_hits self + 1)%nat with (S (_hits self)) by lia.
    do 2 f_equal. unfold with_hits. simpl. f_equal. lia.
Qed.

(** C1: a lookup that misses and whose computation returns [v], followed by
    any number of lookups with the same arguments made within the window of
    the stored value. The computation runs once, in the first lookup; each of
    the others returns [v], adds one to [_hits] and leaves [_misses] at the
    value that the first lookup gave it. *)
Theorem C1_computed_once_within_ttl
    (self : _Cache) (args : list pyval) (kwargs : kwargs_t) (w : World)
    (v : pyval) (e1 : Env) (envs : list Env) :
  hashable (call_key args kwargs) = true →
  misses_at self (call_key args kwargs) w →
  body (_cached_func self) args kwargs (env w) = (Return v, e1) →
  Forall (λ e, within_ttl (_duration self) (now e1) (now e)) envs →
  ∃ self1 w1 self2,
    _get self args kwargs w = (Return v, self1, w1) ∧
    trace w1 = trace w ++ [Called (__name__ (_cached_func self)) args kwargs] ∧
    lookups self1 args kwargs envs (trace w1) =
      (hits_from v (_hits self) (_misses self + 1) (length envs), self2, trace w1) ∧
    calls (trace w1) = (calls (trace w) + 1)%nat ∧
    _hits self2 = (_hits self + length envs)%nat ∧
    _misses self2 = (_misses self + 1)%nat ∧
    _cache self2 !! call_key args kwargs = Some v.
Proof.
  intros Hk Hm Hb Hw.
  exists (stored self (call_key args kwargs) v (now e1)), (invoked self args kwargs w e1).
  eexists. split; [by apply _get_miss_return|]. split; [done|].
  split.
  - apply (lookups_hits args kwargs v (now e1)); [done|..].
    + simpl. apply lookup_insert_eq.
    + simpl. apply lookup_insert_eq.
    + done.
  - simpl. unfold calls. rewrite filter_app, length_app. simpl.
    rewrite lookup_insert_eq. repeat split; lia.
Qed.

(** ** Lookups that return *)

Lemma hashable_call_key_obj (o : positive) (args : list pyval) (kwargs : kwargs_t) :
  hashable (call_key (VObj o :: args) kwargs) = hashable (call_key args kwargs).
Proof. reflexivity. Qed.

Lemma call_key_obj_inj (o1 o2 : positive) (args : list pyval) (kwargs : kwargs_t) :
  o1 ≠ o2 → call_key (VObj o1 :: args) kwargs ≠ call_key (VObj o2 :: args) kwargs.
Proof. intros Hne Heq. apply Hne. unfold call_key in Heq. congruence. Qed.

(** The key that [__set__] writes is not the key that a read looks up. *)
Lemma seed_key_is_not_call_key (obj : positive) : seed_key obj ≠ call_key [VObj obj] [].
Proof. unfold seed_key, call_key. simpl. congruence. Qed.

(** A lookup with a key that can be hashed, of a computation that returns: the
    lookup returns a value that is then stored under the key, the other keys
    keep what they had, and the lookup is counted once, as a hit or as a
    miss. *)
Lemma _get_returns (self : _Cache) (args : list pyval) (kwargs : kwargs_t) (w : World) :
  keys_inv self →
  hashable (call_key args kwargs) = true →
  returns_on (_cached_func self) args kwargs →
  ∃ v self' w',
    _get self args kwargs w = (Return v, self', w') ∧
    _cache self' !! call_key args kwargs = Some v ∧
    (∀ k, k ≠ call_key args kwargs → _cache self' !! k = _cache self !! k) ∧
    keys_inv self' ∧
    _cached_func self' = _cached_func self ∧
    (_hits self' + _misses self' = _hits self + _misses self + 1)%nat.
Proof.
  intros Hinv Hk Hret.
  destruct (Hret (env w)) as (v' & e' & Hb).
  assert (misses_at self (call_key args kwargs) w →
          ∃ v self' w',
            _get self args kwargs w = (Return v, self', w') ∧
            _cache self' !! call_key args kwargs = Some v ∧
            (∀ k, k ≠ call_key args kwargs → _cache self' !! k = _cache self !! k) ∧
            keys_inv self' ∧
            _cached_func self' = _cached_func self ∧
            (_hits self' + _misses self' = _hits self + _misses self + 1)%nat) as Hmiss.
  { intros Hm. eexists _, _, _. split; [by apply _get_miss_return|].
    simpl. split; [apply lookup_insert_eq|].
    split; [intros k Hne; by apply lookup_insert_ne|].
    split; [by apply keys_inv_stored|]. split; [done|lia]. }
  destruct (_cache self !! call_key args kwargs) as [value|] eqn:Hv.
  - destruct (fresh_total self (call_key args kwargs) w) as [[|] Hf]; eauto.
    + exists value, (with_hits self (_hits self + 1)), w.
      split; [by apply _get_hit|]. simpl. repeat split; try done. lia.
    + apply Hmiss. by right.
  - apply Hmiss. by left.
Qed.

(** ** The request-bound memoizers *)

Lemma _setup_cache_request (self : memoizer) (obj : positive) (st : State) :
  request_bound (klass self) = true →
  _setup_cache self obj st =
    let a := (request_cache st, cache_objname self) in
    (a, entry_of self st a,
     match slots st !! a with Some _ => st | None => with_slot st a (entry_of self st a) end).
Proof.
  intros Hk. unfold _setup_cache, _memoize_setup_cache, entry_of.
  destruct (klass self); try done; simpl; by destruct (slots st !! _).
Qed.

(** A call through a request-bound memoizer is a lookup in the cache of
    [env.request.cache], which receives the cache that the lookup leaves. *)
Lemma __call___request (self : memoizer) (obj : positive) (args : list pyval)
    (kwargs : kwargs_t) (st : State) :
  request_bound (klass self) = true →
  ∃ st',
    __call__ self obj args kwargs st =
      ((_get (entry_of self st (request_cache st, cache_objname self))
             (VObj obj :: args) kwargs (world st)).1.1, st') ∧
    request_cache st' = request_cache st ∧
    slots st' !! (request_cache st, cache_objname self) =
      Some (_get (entry_of self st (request_cache st, cache_objname self))
                 (VObj obj :: args) kwargs (world st)).1.2 ∧
    world st' =
      (_get (entry_of self st (request_cache st, cache_objname self))
            (VObj obj :: args) kwargs (world st)).2.
Proof.
  intros Hk. unfold __call__. rewrite (_setup_cache_request _ _ _ Hk). cbv zeta.
  set (a := (request_cache st, cache_objname self)).
  set (c0 := entry_of self st a).
  assert (∀ st1 : State, world st1 = world st → request_cache st1 = request_cache st →
    ∃ st',
      (let '(r, cache', w') := _get c0 (VObj obj :: args) kwargs (world st1) in
       (r, with_slot (with_world st1 w') a cache')) =
        ((_get c0 (VObj obj :: args) kwargs (world st)).1.1, st') ∧
      request_cache st' = request_cache st ∧
      slots st' !! a = Some (_get c0 (VObj obj :: args) kwargs (world st)).1.2 ∧
      world st' = (_get c0 (VObj obj :: args) kwargs (world st)).2) as Hgen.
  { intros st1 Hw Hr. rewrite Hw.
    destruct (_get c0 (VObj obj :: args) kwargs (world st)) as [[r c'] w'].
    eexists. split; [reflexivity|]. simpl. split; [done|].
    split; [apply lookup_insert_eq|done]. }
  destruct (slots st !! a); by apply Hgen.
Qed.

(** C7: two distinct instances call a request-bound memoized computation with
    the same arguments during one request. Both calls resolve the cache at the
    same address, the attribute of [env.request.cache]; the keys of the two
    calls differ by the instance; after the second call the cache holds the
    result of each instance under its own key; and each call is counted once
    by the counters of that one cache. *)
Theorem C7_request_cache_is_shared_and_keyed_by_instance
    (self : memoizer) (o1 o2 : positive) (args : list pyval) (kwargs : kwargs_t)
    (st : State) :
  request_bound (klass self) = true →
  o1 ≠ o2 →
  hashable (call_key args kwargs) = true →
  keys_inv (entry_of self st (request_cache st, cache_objname self)) →
  _cached_func (entry_of self st (request_cache st, cache_objname self)) = func self →
  returns_on (func self) (VObj o1 :: args) kwargs →
  returns_on (func self) (VObj o2 :: args) kwargs →
  ∃ v1 v2 st1 st2 c1 c2,
    __call__ self o1 args kwargs st = (Return v1, st1) ∧
    __call__ self o2 args kwargs st1 = (Return v2, st2) ∧
    (_setup_cache self o1 st).1.1 = (request_cache st, cache_objname self) ∧
    (_setup_cache self o2 st1).1.1 = (request_cache st, cache_objname self) ∧
    (_setup_cache self o2 st1).1.2 = c1 ∧
    slots st1 !! (request_cache st, cache_objname self) = Some c1 ∧
    slots st2 !! (request_cache st, cache_objname self) = Some c2 ∧
    call_key (VObj o1 :: args) kwargs ≠ call_key (VObj o2 :: args) kwargs ∧
    _cache c1 !! call_key (VObj o1 :: args) kwargs = Some v1 ∧
    _cache c2 !! call_key (VObj o1 :: args) kwargs = Some v1 ∧
    _cache c2 !! call_key (VObj o2 :: args) kwargs = Some v2 ∧
    (_hits c1 + _misses c1 =
       _hits (entry_of self st (request_cache st, cache_objname self)) +
       _misses (entry_of self st (request_cache st, cache_objname self)) + 1)%nat ∧
    (_hits c2 + _misses c2 = _hits c1 + _misses c1 + 1)%nat.
Proof.
  intros Hreq Hne Hk Hinv Hf Hr1 Hr2.
  set (a := (request_cache st, cache_objname self)) in *.
  set (c0 := entry_of self st a) in *.
  destruct (__call___request self o1 args kwargs st Hreq) as (st1 & Hcall1 & Hrc1 & Hs1 & Hw1).
  fold a in Hcall1, Hs1, Hw1. fold c0 in Hcall1, Hs1, Hw1.
  destruct (_get_returns c0 (VObj o1 :: args) kwargs (world st)) as
    (v1 & c1 & w1 & Hg1 & Hv1 & Hframe1 & Hinv1 & Hf1 & Hcount1);
    [done|done|by rewrite Hf|].
  rewrite Hg1 in Hcall1, Hs1, Hw1. cbn [fst snd] in Hcall1, Hs1, Hw1.
  assert (entry_of self st1 (request_cache st1, cache_objname self) = c1) as Hentry.
  { unfold entry_of. rewrite Hrc1. fold a. by rewrite Hs1. }
  destruct (__call___request self o2 args kwargs st1 Hreq) as (st2 & Hcall2 & Hrc2 & Hs2 & Hw2).
  rewrite Hentry in Hcall2, Hs2, Hw2. rewrite Hrc1 in Hs2. fold a in Hs2.
  destruct (_get_returns c1 (VObj o2 :: args) kwargs (world st1)) as
    (v2 & c2 & w2 & Hg2 & Hv2 & Hframe2 & Hinv2 & Hf2 & Hcount2);
    [done|done|by rewrite Hf1, Hf|].
  rewrite Hg2 in Hcall2, Hs2, Hw2. cbn [fst snd] in Hcall2, Hs2, Hw2.
  pose proof (call_key_obj_inj o1 o2 args kwargs Hne) as Hkeys.
  exists v1, v2, st1, st2, c1, c2.
  rewrite !(_setup_cache_request _ _ _ Hreq). cbv zeta. cbn [fst snd].
  rewrite Hentry, Hrc1. fold a.
  repeat split; try done.
  rewrite Hframe2 by done. done.
Qed.

(** C7 on a fresh request: the objects 1 and 2 call [ident] through one
    request-bound memoizer. *)
Lemma C7_witness :
  ∃ v1 v2 st1 st2 c1 c2,
    __call__ Sample.req_ident 1 [VInt 5] [] (Sample.fresh_state 0) = (Return v1, st1) ∧
    __call__ Sample.req_ident 2 [VInt 5] [] st1 = (Return v2, st2) ∧
    (_setup_cache Sample.req_ident 1 (Sample.fresh_state 0)).1.1 = (100%positive, "ident_cache") ∧
    (_setup_cache Sample.req_ident 2 st1).1.1 = (100%positive, "ident_cache") ∧
    (_setup_cache Sample.req_ident 2 st1).1.2 = c1 ∧
    slots st1 !! (100%positive, "ident_cache") = Some c1 ∧
    slots st2 !! (100%positive, "ident_cache") = Some c2 ∧
    call_key [VObj 1; VInt 5] [] ≠ call_key [VObj 2; VInt 5] [] ∧
    _cache c1 !! call_key [VObj 1; VInt 5] [] = Some v1 ∧
    _cache c2 !! call_key [VObj 1; VInt 5] [] = Some v1 ∧
    _cache c2 !! call_key [VObj 2; VInt 5] [] = Some v2 ∧
    (_hits c1 + _misses c1 = 0 + 0 + 1)%nat ∧
    (_hits c2 + _misses c2 = _hits c1 + _misses c1 + 1)%nat.
Proof.
  apply (C7_request_cache_is_shared_and_keyed_by_instance
           Sample.req_ident 1 2 [VInt 5] [] (Sample.fresh_state 0)).
  - reflexivity.
  - discriminate.
  - reflexivity.
  - apply keys_inv_init.
  - reflexivity.
  - intros e. by eexists _, _.
  - intros e. by eexists _, _.
Defined.

(** ** Properties and their setters *)

(** C2, at the property [x] of the object 1, whose getter reads the attribute
    that its setter writes. The write stores 7 under [seed_key], which no read
    looks up. A read that follows the write runs the getter and counts a miss;
    when a read came before the write, the read that follows it is a hit on
    the value of before the write, 3, while the attribute holds 7. *)
Theorem C2_write_does_not_seed_the_read :
  let st0 := Sample.fresh_state 0 in
  let a := (1%positive, "x_cache"%string) in
  (∃ st1 st2 c1 c2,
     __set__ Sample.prop_x 1 (VInt 7) st0 = (Return tt, st1) ∧
     slots st1 !! a = Some c1 ∧
     _cache c1 !! seed_key 1 = Some (VInt 7) ∧
     _cache c1 !! call_key [VObj 1] [] = None ∧
     infos c1 = (0, 0, 1)%nat ∧
     _memoize_property__get__ Sample.prop_x 1 st1 = (Return (VInt 7), st2) ∧
     slots st2 !! a = Some c2 ∧
     infos c2 = (0, 1, 2)%nat ∧
     trace (world st2) = [Called "x" [VObj 1; VInt 7] []; Called "x" [VObj 1] []]) ∧
  (∃ st1 st2 st3 c3,
     _memoize_property__get__ Sample.prop_x 1 st0 = (Return (VInt 3), st1) ∧
     __set__ Sample.prop_x 1 (VInt 7) st1 = (Return tt, st2) ∧
     _memoize_property__get__ Sample.prop_x 1 st2 = (Return (VInt 3), st3) ∧
     attrs (env (world st3)) !! (1%positive, "_x"%string) = Some (VInt 7) ∧
     slots st3 !! a = Some c3 ∧
     infos c3 = (1, 1, 2)%nat).
Proof.
  cbv zeta. split.
  - eexists _, _, _, _. repeat split; vm_compute; reflexivity.
  - eexists _, _, _, _. repeat split; vm_compute; reflexivity.
Qed.

(** ** The decorators *)

(** C8, as the code has it: [memoize] and [memoize_property] take a name and
    an optional duration and attach both to the memoizer, whose caches are
    created with that duration. [request_memoize] and
    [request_memoize_property] take the name only: their memoizers and caches
    have no duration, and a call that gives one raises. *)
Theorem C8_front_ends_attach_name_and_duration
    (nm : string) (d : option (option Z)) (f : pyfunc) :
  attaches memoize (CtorArgs nm d) K_memoize f (default None d) ∧
  attaches memoize_property (CtorArgs nm d) K_memoize_property f (default None d) ∧
  attaches request_memoize (CtorArgs nm None) K_request_memoize f None ∧
  attaches request_memoize_property (CtorArgs nm None) K_request_memoize_property f None ∧
  ∀ d', request_memoize (CtorArgs nm (Some d')) = Raise unexpected_argument ∧
        request_memoize_property (CtorArgs nm (Some d')) = Raise unexpected_argument.
Proof.
  assert (∀ m ttl obj st,
            func m = f → duration m = ttl →
            slots st !! (_setup_cache m obj st).1.1 = None →
            (_setup_cache m obj st).1.2 = _Cache__init__ f ttl) as Hnew.
  { intros m ttl obj st <- <-. unfold _setup_cache, _memoize_setup_cache.
    destruct (klass m); simpl.
    - destruct (slots st !! (obj, cache_objname m)) eqn:E; simpl; [by rewrite E|done].
    - destruct (slots st !! (obj, cache_objname m)) eqn:E; simpl; [by rewrite E|done].
    - destruct (slots st !! (request_cache st, cache_objname m)) eqn:E; simpl;
        [by rewrite E|done].
    - destruct (slots st !! (request_cache st, cache_objname m)) eqn:E; simpl;
        [by rewrite E|done]. }
  repeat split; try (eexists; split; [reflexivity|]; split; [reflexivity|];
                     intros obj st; by apply Hnew).
Qed.

(** C8 fails as stated: the request-bound front-ends refuse a duration, and
    the cache of a request-bound memoizer has none. *)
Lemma C8_request_front_ends_take_no_duration :
  request_memoize (CtorArgs "slot" (Some (Some 10))) = Raise unexpected_argument ∧
  request_memoize_property (CtorArgs "slot" (Some (Some 10))) = Raise unexpected_argument ∧
  ∃ deco,
    request_memoize (CtorArgs "slot" None) = Return deco ∧
    duration (decorate deco Sample.answer) = None ∧
    _duration (_setup_cache (decorate deco Sample.answer) 1 (Sample.fresh_state 0)).1.2 = None.
Proof.
  split; [reflexivity|]. split; [reflexivity|].
  eexists. split; [reflexivity|]. split; reflexivity.
Qed.

(** ** The claims that fail, at an input *)

(** C5 fails as stated: in a cache of duration 10 with a value stored at 0,
    the lookup made when the clock shows 10 is not stale by the rule
    [now - store_time > d], yet it runs the computation and counts a miss.
    With the duration 0 the rule calls every later lookup stale, and the
    lookup made when the clock shows 1000 is a hit. *)
Lemma C5_lookup_at_the_deadline_is_a_miss :
  ((now (env (Sample.at_time 1000)) - 0 >? 0) = true ∧
   ∃ self' w',
     _get (with_duration Sample.warm (Some 0)) [VInt 1] [] (Sample.at_time 1000) =
       (Return (VInt 42), self', w') ∧
     infos self' = (1, 1, 1)%nat ∧
     trace w' = []) ∧
  _duration Sample.warm = Some 10 ∧
  _times Sample.warm !! call_key [VInt 1] [] = Some 0 ∧
  infos Sample.warm = (0, 1, 1)%nat ∧
  (now (env (Sample.at_time 10)) - 0 >? 10) = false ∧
  ∃ self' w',
    _get Sample.warm [VInt 1] [] (Sample.at_time 10) = (Return (VInt 42), self', w') ∧
    infos self' = (0, 2, 1)%nat ∧
    trace w' = [Called "answer" [VInt 1] []] ∧
    _times self' !! call_key [VInt 1] [] = Some 10.
Proof.
  split.
  { split; [reflexivity|]. eexists _, _. repeat split; vm_compute; reflexivity. }
  split; [reflexivity|]. split; [vm_compute; reflexivity|].
  split; [vm_compute; reflexivity|]. split; [reflexivity|].
  eexists _, _. repeat split; vm_compute; reflexivity.
Qed.

(** C6 fails as stated: after [clear] the timestamp of the key stored before
    is still in [_times], a key of [_times] that is not a key of [_cache]. *)
Lemma C6_clear_keeps_the_timestamps :
  _cache (clear Sample.warm) !! call_key [VInt 1] [] = None ∧
  _times (clear Sample.warm) !! call_key [VInt 1] [] = Some 0 ∧
  _times (clear Sample.warm) ≠ ∅ ∧
  ¬ same_keys (clear Sample.warm).
Proof.
  assert (_times (clear Sample.warm) !! call_key [VInt 1] [] = Some 0) as Ht
    by (vm_compute; reflexivity).
  split; [reflexivity|]. split; [done|]. split.
  - intros Hempty. rewrite Hempty, lookup_empty in Ht. discriminate.
  - intros Hsame. destruct (proj2 (Hsame (call_key [VInt 1] []))) as [v Hv].
    + rewrite Ht. eauto.
    + simpl in Hv. by rewrite lookup_empty in Hv.
Qed.

(** ** The claims at an input *)

(** C1 on a new cache of duration 10: [answer(1)] at time 0, then at the times
    3 and 9. *)
Lemma C1_witness :
  ∃ self1 w1 self2,
    _get (_Cache__init__ Sample.answer (Some 10)) [VInt 1] [] (Sample.at_time 0) =
      (Return (VInt 42), self1, w1) ∧
    trace w1 = [] ++ [Called "answer" [VInt 1] []] ∧
    lookups self1 [VInt 1] [] [MkEnv 3 ∅; MkEnv 9 ∅] (trace w1) =
      ([(Return (VInt 42), 1, 1); (Return (VInt 42), 2, 1)]%nat, self2, trace w1) ∧
    calls (trace w1) = 1%nat ∧
    _hits self2 = 2%nat ∧
    _misses self2 = 1%nat ∧
    _cache self2 !! call_key [VInt 1] [] = Some (VInt 42).
Proof.
  apply (C1_computed_once_within_ttl
           (_Cache__init__ Sample.answer (Some 10)) [VInt 1] [] (Sample.at_time 0)
           (VInt 42) (MkEnv 0 ∅) [MkEnv 3 ∅; MkEnv 9 ∅]).
  - reflexivity.
  - left. reflexivity.
  - reflexivity.
  - repeat constructor; simpl; lia.
Defined.

(** C4 on a call with a list for argument. *)
Lemma C4_witness :
  ∃ self' w',
    _get Sample.warm [VList [VInt 1]] [] (Sample.at_time 4) = (Return (VInt 42), self', w') ∧
    env w' = MkEnv 4 ∅ ∧
    trace w' = [] ++
      [Logged "answer" (call_key [VList [VInt 1]] []) unhashable;
       Called "answer" [VList [VInt 1]] []] ∧
    warnings (trace w') = 1%nat ∧
    calls (trace w') = 1%nat ∧
    self' = Sample.warm ∧
    infos self' = infos Sample.warm.
Proof.
  apply (C4_unhashable_falls_back Sample.warm [VList [VInt 1]] [] (Sample.at_time 4)).
  reflexivity.
Defined.

(** C5 one tick before the deadline, and at the deadline. *)
Lemma C5_witness :
  _get Sample.warm [VInt 1] [] (Sample.at_time 9) =
    (Return (VInt 42), with_hits Sample.warm 1, Sample.at_time 9) ∧
  _get Sample.warm [VInt 1] [] (Sample.at_time 10) =
    (Return (VInt 42), stored Sample.warm (call_key [VInt 1] []) (VInt 42) 10,
     invoked Sample.warm [VInt 1] [] (Sample.at_time 10) (MkEnv 10 ∅)).
Proof.
  split.
  - apply (C5_fresh_before_the_deadline Sample.warm [VInt 1] [] (Sample.at_time 9)
             10 0 (VInt 42) (VInt 42) (MkEnv 9 ∅));
      [reflexivity | lia | reflexivity | vm_compute; reflexivity
      | vm_compute; reflexivity | reflexivity].
  - apply (C5_fresh_before_the_deadline Sample.warm [VInt 1] [] (Sample.at_time 10)
             10 0 (VInt 42) (VInt 42) (MkEnv 10 ∅));
      [reflexivity | lia | reflexivity | vm_compute; reflexivity
      | vm_compute; reflexivity | reflexivity].
Defined.

(** C9 on the value stored at 0, looked up at 5. *)
Lemma C9_witness :
  ∃ self',
    _get Sample.warm [VInt 1] [] (Sample.at_time 5) = (Return (VInt 42), self', Sample.at_time 5) ∧
    _cache self' = _cache Sample.warm ∧
    _times self' = _times Sample.warm ∧
    _misses self' = _misses Sample.warm ∧
    _hits self' = (_hits Sample.warm + 1)%nat ∧
    ∀ w2, fresh self' (call_key [VInt 1] []) w2 = fresh Sample.warm (call_key [VInt 1] []) w2.
Proof.
  apply (C9_hit_changes_only_hits Sample.warm [VInt 1] [] (Sample.at_time 5) (VInt 42)).
  - reflexivity.
  - vm_compute; reflexivity.
  - vm_compute; reflexivity.
Defined.

(** C10 on a cache of duration 0 that holds a value stored at 0, looked up
    when the clock shows 1000. *)
Lemma C10_witness :
  let self := with_duration Sample.warm (Some 0) in
  _get self [VInt 1] [] (Sample.at_time 1000) =
    (let '(r, c, w') := _get (with_duration self None) [VInt 1] [] (Sample.at_time 1000) in
     (r, with_duration c (Some 0), w')) ∧
  _get self [VInt 1] [] (Sample.at_time 1000) =
    (Return (VInt 42), with_hits self (_hits self + 1), Sample.at_time 1000).
Proof.
  cbv zeta.
  destruct (C10_zero_duration_is_no_duration
              (with_duration Sample.warm (Some 0)) [VInt 1] [] (Sample.at_time 1000)
              eq_refl) as [Hsame Hhit].
  split; [exact Hsame|].
  apply (Hhit (VInt 42)); [reflexivity | vm_compute; reflexivity].
Defined.

(** * Further properties of the cache *)

(** ** The shape of a lookup *)

(** The ways a lookup can go: the key cannot be hashed; a hit; a stored key
    without a timestamp; a miss whose computation returns; a miss whose
    computation raises, a [TypeError] or not. *)
Lemma _get_cases (self : _Cache) (args : list pyval) (kwargs : kwargs_t) (w : World) :
  (hashable (call_key args kwargs) = false ∧
   _get self args kwargs w =
     ((body (_cached_func self) args kwargs (env w)).1, self,
      MkWorld (body (_cached_func self) args kwargs (env w)).2
        (trace w ++
           [Logged (__name__ (_cached_func self)) (call_key args kwargs) unhashable;
            Called (__name__ (_cached_func self)) args kwargs]))) ∨
  (hashable (call_key args kwargs) = true ∧
   ∃ value, _cache self !! call_key args kwargs = Some value ∧
     _get self args kwargs w = (Return value, with_hits self (_hits self + 1), w)) ∨
  (hashable (call_key args kwargs) = true ∧
   is_Some (_cache self !! call_key args kwargs) ∧
   _times self !! call_key args kwargs = None ∧
   _get self args kwargs w = (Raise (Exn KeyError ""), self, w)) ∨
  (hashable (call_key args kwargs) = true ∧
   misses_at self (call_key args kwargs) w ∧
   ∃ v e, body (_cached_func self) args kwargs (env w) = (Return v, e) ∧
     _get self args kwargs w =
       (Return v, stored self (call_key args kwargs) v (now e), invoked self args kwargs w e)) ∨
  (hashable (call_key args kwargs) = true ∧
   misses_at self (call_key args kwargs) w ∧
   ∃ ex e, body (_cached_func self) args kwargs (env w) = (Raise ex, e) ∧
     is_TypeError ex = false ∧
     _get self args kwargs w =
       (Raise ex, with_misses self (_misses self + 1), invoked self args kwargs w e)) ∨
  (hashable (call_key args kwargs) = true ∧
   misses_at self (call_key args kwargs) w ∧
   ∃ ex e, body (_cached_func self) args kwargs (env w) = (Raise ex, e) ∧
     is_TypeError ex = true ∧
     _get self args kwargs w =
       ((body (_cached_func self) args kwargs e).1, with_misses self (_misses self + 1),
        MkWorld (body (_cached_func self) args kwargs e).2
          (trace w ++
             [Called (__name__ (_cached_func self)) args kwargs;
              Logged (__name__ (_cached_func self)) (call_key args kwargs) ex;
              Called (__name__ (_cached_func self)) args kwargs]))).
Proof.
  destruct (hashable (call_key args kwargs)) eqn:Hk.
  - right.
    assert (misses_at self (call_key args kwargs) w →
      (misses_at self (call_key args kwargs) w ∧
       ∃ v e, body (_cached_func self) args kwargs (env w) = (Return v, e) ∧
         _get self args kwargs w =
           (Return v, stored self (call_key args kwargs) v (now e),
            invoked self args kwargs w e)) ∨
      (misses_at self (call_key args kwargs) w ∧
       ∃ ex e, body (_cached_func self) args kwargs (env w) = (Raise ex, e) ∧
         is_TypeError ex = false ∧
         _get self args kwargs w =
           (Raise ex, with_misses self (_misses self + 1), invoked self args kwargs w e)) ∨
      (misses_at self (call_key args kwargs) w ∧
       ∃ ex e, body (_cached_func self) args kwargs (env w) = (Raise ex, e) ∧
         is_TypeError ex = true ∧
         _get self args kwargs w =
           ((body (_cached_func self) args kwargs e).1, with_misses self (_misses self + 1),
            MkWorld (body (_cached_func self) args kwargs e).2
              (trace w ++
                 [Called (__name__ (_cached_func self)) args kwargs;
                  Logged (__name__ (_cached_func self)) (call_key args kwargs) ex;
                  Called (__name__ (_cached_func self)) args kwargs])))) as Hmiss.
    { intros Hm.
      destruct (body (_cached_func self) args kwargs (env w)) as [[v|ex] e] eqn:Hb.
      - left. split; [done|]. exists v, e. split; [done|]. by apply _get_miss_return.
      - destruct (is_TypeError ex) eqn:Hex.
        + right. right. split; [done|]. exists ex, e. do 2 (split; [done|]).
          rewrite (_get_miss_TypeError self args kwargs w ex e Hk Hm Hb Hex).
          unfold call, log_critical, invoked. cbn [env trace].
          destruct (body (_cached_func self) args kwargs e) as [r e2]. cbn [fst snd].
          by rewrite <- !app_assoc.
        + right. left. split; [done|]. exists ex, e. do 2 (split; [done|]).
          by apply _get_miss_raise. }
    destruct (_cache self !! call_key args kwargs) as [value|] eqn:Hv.
    + destruct (fresh self (call_key args kwargs) w) as [[|]|ex] eqn:Hf.
      * left. split; [done|]. exists value. split; [done|]. by apply _get_hit.
      * right. right.
        destruct (Hmiss (or_intror Hf)) as [H|[H|H]];
          [left|right; left|right; right]; (split; [done|exact H]).
      * right. left. split; [done|]. split; [eauto|].
        unfold fresh, dict_getitem in Hf. rewrite Hk in Hf.
        destruct (_duration self) as [d|] eqn:Hd; [|done].
        destruct (d =? 0) eqn:Hd0; [done|].
        destruct (_times self !! call_key args kwargs) eqn:Ht; [done|].
        split; [done|]. injection Hf as <-.
        unfold _get, _get_try, dict_get, fresh, dict_getitem.
        by rewrite Hk, Hv, Hd, Hd0, Ht.
    + right. right.
      destruct (Hmiss (or_introl Hv)) as [H|[H|H]];
        [left|right; left|right; right]; (split; [done|exact H]).
  - left. split; [done|]. rewrite (_get_unhashable _ _ _ _ Hk).
    unfold call, log_critical. cbn [env trace].
    destruct (body (_cached_func self) args kwargs (env w)) as [r e]. cbn [fst snd].
    by rewrite <- app_assoc.
Qed.

(** ** Keys *)

Lemma kwargs_items_inj (kwargs1 kwargs2 : kwargs_t) :
  kwargs_items kwargs1 = kwargs_items kwargs2 → kwargs1 = kwargs2.
Proof.
  revert kwargs2. induction kwargs1 as [|[n1 v1] kw1 IH]; intros [|[n2 v2] kw2] Heq;
    simpl in Heq; try done.
  injection Heq as -> -> Hrest. f_equal. by apply IH.
Qed.

Lemma call_key_inj (args1 args2 : list pyval) (kwargs1 kwargs2 : kwargs_t) :
  call_key args1 kwargs1 = call_key args2 kwargs2 → args1 = args2 ∧ kwargs1 = kwargs2.
Proof.
  unfold call_key. intros Heq. injection Heq as -> Hkw.
  split; [done|]. by apply kwargs_items_inj.
Qed.

(** X1: two calls have the same key exactly when they have the same
    positional arguments and the same keyword arguments, in the same order. *)
Theorem X1_call_key_injective (args1 args2 : list pyval) (kwargs1 kwargs2 : kwargs_t) :
  call_key args1 kwargs1 = call_key args2 kwargs2 ↔ args1 = args2 ∧ kwargs1 = kwargs2.
Proof.
  split; [apply call_key_inj|by intros [-> ->]].
Qed.

(** X2: the key of a call can be hashed exactly when every positional argument
    and the value of every keyword argument can. *)
Theorem X2_call_key_hashable (args : list pyval) (kwargs : kwargs_t) :
  hashable (call_key args kwargs) =
    forallb hashable args && forallb (λ kv, hashable kv.2) kwargs.
Proof.
  unfold call_key. cbn [hashable forallb]. rewrite andb_true_r. f_equal.
  induction kwargs as [|[n v] kw IH]; [done|].
  cbn [kwargs_items List.map forallb hashable fst snd] in *.
  rewrite andb_true_r. f_equal. exact IH.
Qed.

(** ** What every lookup keeps *)

(** X3: whatever the arguments, the world and the outcome of the computation,
    a lookup keeps the invariant that every key of [_cache] has a
    timestamp. *)
Theorem X3_get_keeps_keys_inv
    (self : _Cache) (args : list pyval) (kwargs : kwargs_t) (w : World) :
  keys_inv self → keys_inv (_get self args kwargs w).1.2.
Proof.
  intros Hinv.
  destruct (_get_cases self args kwargs w) as
    [(Hk & Hg)|[(Hk & value & Hv & Hg)|[(Hk & Hs & Ht & Hg)|[(Hk & Hm & v & e & Hb & Hg)|
     [(Hk & Hm & ex & e & Hb & Hex & Hg)|(Hk & Hm & ex & e & Hb & Hex & Hg)]]]]];
    rewrite Hg; cbn [fst snd]; try done.
  by apply keys_inv_stored.
Qed.

Lemma X3_witness :
  keys_inv (_get Sample.warm [VInt 1] [] (Sample.at_time 20)).1.2.
Proof.
  apply (X3_get_keeps_keys_inv Sample.warm [VInt 1] [] (Sample.at_time 20)).
  apply (X3_get_keeps_keys_inv (_Cache__init__ Sample.answer (Some 10)) [VInt 1] []
           (Sample.at_time 0)).
  apply keys_inv_init.
Defined.



(** X5: in a cache that satisfies the invariant, a lookup whose key can be
    hashed is counted once, as a hit or as a miss, whatever the computation
    does; neither counter decreases. *)
Theorem X5_get_counts_a_hashable_lookup_once
    (self : _Cache) (args : list pyval) (kwargs : kwargs_t) (w : World) :
  keys_inv self →
  hashable (call_key args kwargs) = true →
  (_hits (_get self args kwargs w).1.2 + _misses (_get self args kwargs w).1.2 =
     _hits self + _misses self + 1)%nat ∧
  (_hits self ≤ _hits (_get self args kwargs w).1.2)%nat ∧
  (_misses self ≤ _misses (_get self args kwargs w).1.2)%nat.
Proof.
  intros Hinv Hk'.
  destruct (_get_cases self args kwargs w) as
    [(Hk & Hg)|[(Hk & value & Hv & Hg)|[(Hk & Hs & Ht & Hg)|[(Hk & Hm & v & e & Hb & Hg)|
     [(Hk & Hm & ex & e & Hb & Hex & Hg)|(Hk & Hm & ex & e & Hb & Hex & Hg)]]]]];
    rewrite ?Hg; cbn [fst snd stored with_hits with_misses _hits _misses];
    try lia.
  - congruence.
  - destruct (Hinv _ Hs) as [t Ht']. by rewrite Ht in Ht'.
Qed.

Lemma X5_witness :
  (_hits (_get Sample.warm [VInt 1] [] (Sample.at_time 20)).1.2 +
   _misses (_get Sample.warm [VInt 1] [] (Sample.at_time 20)).1.2 =
     _hits Sample.warm + _misses Sample.warm + 1)%nat ∧
  (_hits Sample.warm ≤ _hits (_get Sample.warm [VInt 1] [] (Sample.at_time 20)).1.2)%nat ∧
  (_misses Sample.warm ≤ _misses (_get Sample.warm [VInt 1] [] (Sample.at_time 20)).1.2)%nat.
Proof.
  apply (X5_get_counts_a_hashable_lookup_once Sample.warm [VInt 1] [] (Sample.at_time 20)).
  - apply (keys_inv_stored (_Cache__init__ Sample.answer (Some 10))), keys_inv_init.
  - reflexivity.
Defined.

(** X6: a lookup changes [_cache] and [_times] at no key but its own, and
    never changes the duration or the computation of the cache. *)
Theorem X6_get_touches_only_its_key
    (self : _Cache) (args : list pyval) (kwargs : kwargs_t) (w : World) (k : pyval) :
  k ≠ call_key args kwargs →
  _cache (_get self args kwargs w).1.2 !! k = _cache self !! k ∧
  _times (_get self args kwargs w).1.2 !! k = _times self !! k ∧
  _duration (_get self args kwargs w).1.2 = _duration self ∧
  _cached_func (_get self args kwargs w).1.2 = _cached_func self.
Proof.
  intros Hne.
  destruct (_get_cases self args kwargs w) as
    [(Hk & Hg)|[(Hk & value & Hv & Hg)|[(Hk & Hs & Ht & Hg)|[(Hk & Hm & v & e & Hb & Hg)|
     [(Hk & Hm & ex & e & Hb & Hex & Hg)|(Hk & Hm & ex & e & Hb & Hex & Hg)]]]]];
    rewrite Hg; cbn [fst snd]; try done.
  simpl. by rewrite !lookup_insert_ne.
Qed.

Lemma X6_witness :
  _cache (_get Sample.warm [VInt 2] [] (Sample.at_time 3)).1.2 !! call_key [VInt 1] [] =
    _cache Sample.warm !! call_key [VInt 1] [] ∧
  _times (_get Sample.warm [VInt 2] [] (Sample.at_time 3)).1.2 !! call_key [VInt 1] [] =
    _times Sample.warm !! call_key [VInt 1] [] ∧
  _duration (_get Sample.warm [VInt 2] [] (Sample.at_time 3)).1.2 = _duration Sample.warm ∧
  _cached_func (_get Sample.warm [VInt 2] [] (Sample.at_time 3)).1.2 =
    _cached_func Sample.warm.
Proof.
  apply (X6_get_touches_only_its_key Sample.warm [VInt 2] [] (Sample.at_time 3)
           (call_key [VInt 1] [])).
  discriminate.
Defined.

(** X7: when the computation raises an exception that is not a [TypeError] in
    a lookup that misses, the exception leaves the lookup as it is, after one
    run of the computation and no log entry; [_cache], [_times] and [_hits]
    are unchanged and the miss is counted. *)
Theorem X7_other_exceptions_propagate
    (self : _Cache) (args : list pyval) (kwargs : kwargs_t) (w : World)
    (ex : exn) (e : Env) :
  hashable (call_key args kwargs) = true →
  misses_at self (call_key args kwargs) w →
  body (_cached_func self) args kwargs (env w) = (Raise ex, e) →
  is_TypeError ex = false →
  ∃ self' w',
    _get self args kwargs w = (Raise ex, self', w') ∧
    _cache self' = _cache self ∧
    _times self' = _times self ∧
    _hits self' = _hits self ∧
    _misses self' = (_misses self + 1)%nat ∧
    env w' = e ∧
    trace w' = trace w ++ [Called (__name__ (_cached_func self)) args kwargs].
Proof.
  intros Hk Hm Hb Hex. eexists _, _. split; [by apply _get_miss_raise|]. done.
Qed.

Lemma X7_witness :
  ∃ self' w',
    _get (_Cache__init__ Sample.boom (Some 10)) [VInt 1] [] (Sample.at_time 0) =
      (Raise (Exn ValueError "boom"), self', w') ∧
    _cache self' = ∅ ∧
    _times self' = ∅ ∧
    _hits self' = 0%nat ∧
    _misses self' = 1%nat ∧
    env w' = MkEnv 0 ∅ ∧
    trace w' = [] ++ [Called "boom" [VInt 1] []].
Proof.
  apply (X7_other_exceptions_propagate
           (_Cache__init__ Sample.boom (Some 10)) [VInt 1] [] (Sample.at_time 0)
           (Exn ValueError "boom") (MkEnv 0 ∅)).
  - reflexivity.
  - left. reflexivity.
  - reflexivity.
  - reflexivity.
Defined.

(** ** Misses and the size of the cache *)

(** A lookup that misses counts the miss before it runs the computation, and
    the run is the next event of the trace, whatever its outcome. *)
Lemma _get_miss_counts (self : _Cache) (args : list pyval) (kwargs : kwargs_t) (w : World) :
  hashable (call_key args kwargs) = true →
  misses_at self (call_key args kwargs) w →
  _misses (_get self args kwargs w).1.2 = (_misses self + 1)%nat ∧
  _hits (_get self args kwargs w).1.2 = _hits self ∧
  ∃ tr, trace (_get self args kwargs w).2 =
          trace w ++ Called (__name__ (_cached_func self)) args kwargs :: tr.
Proof.
  intros Hk Hm.
  destruct (body (_cached_func self) args kwargs (env w)) as [[v|ex] e] eqn:Hb.
  - rewrite (_get_miss_return self args kwargs w v e) by done. simpl. eauto.
  - destruct (is_TypeError ex) eqn:Hex.
    + rewrite (_get_miss_TypeError self args kwargs w ex e) by done.
      unfold call, log_critical, invoked. cbn [env trace].
      destruct (body (_cached_func self) args kwargs e) as [r e2]. cbn [fst snd trace].
      repeat split; try done. eexists. by rewrite <- !app_assoc.
    + rewrite (_get_miss_raise self args kwargs w ex e) by done. simpl. eauto.
Qed.

(** X8: a lookup that misses and whose computation returns leaves [hits] as
    it was and counts the miss; the size grows by one when the key was absent
    and stays when a stale value is replaced. *)
Theorem X8_miss_grows_the_size_for_a_new_key
    (self : _Cache) (args : list pyval) (kwargs : kwargs_t) (w : World)
    (v : pyval) (e : Env) :
  hashable (call_key args kwargs) = true →
  misses_at self (call_key args kwargs) w →
  body (_cached_func self) args kwargs (env w) = (Return v, e) →
  infos (_get self args kwargs w).1.2 =
    (_hits self, (_misses self + 1)%nat,
     match _cache self !! call_key args kwargs with
     | Some _ => size (_cache self)
     | None => S (size (_cache self))
     end).
Proof.
  intros Hk Hm Hb. rewrite (_get_miss_return self args kwargs w v e) by done.
  unfold infos. cbn [fst snd stored _cache _hits _misses].
  rewrite map_size_insert. by destruct (_cache self !! call_key args kwargs).
Qed.

Lemma X8_witness :
  infos (_get Sample.warm [VInt 1] [] (Sample.at_time 20)).1.2 = (0, 1 + 1, 1)%nat ∧
  infos (_get Sample.warm [VInt 2] [] (Sample.at_time 20)).1.2 = (0, 1 + 1, 2)%nat.
Proof.
  split.
  - apply (X8_miss_grows_the_size_for_a_new_key Sample.warm [VInt 1] []
             (Sample.at_time 20) (VInt 42) (MkEnv 20 ∅));
      [reflexivity | right; vm_compute; reflexivity | reflexivity].
  - apply (X8_miss_grows_the_size_for_a_new_key Sample.warm [VInt 2] []
             (Sample.at_time 20) (VInt 42) (MkEnv 20 ∅));
      [reflexivity | left; vm_compute; reflexivity | reflexivity].
Defined.

(** X9: two lookups whose arguments differ, by a positional argument, a
    keyword, its value or the order of the keywords, and whose keys are both
    absent: each result is stored under its own key and the size grows by
    two. *)
Theorem X9_different_arguments_take_different_entries
    (self : _Cache) (args1 args2 : list pyval) (kwargs1 kwargs2 : kwargs_t)
    (w1 w2 : World) (v1 v2 : pyval) (e1 e2 : Env) :
  (args1, kwargs1) ≠ (args2, kwargs2) →
  hashable (call_key args1 kwargs1) = true →
  hashable (call_key args2 kwargs2) = true →
  _cache self !! call_key args1 kwargs1 = None →
  _cache self !! call_key args2 kwargs2 = None →
  body (_cached_func self) args1 kwargs1 (env w1) = (Return v1, e1) →
  body (_cached_func self) args2 kwargs2 (env w2) = (Return v2, e2) →
  _cache (_get (_get self args1 kwargs1 w1).1.2 args2 kwargs2 w2).1.2
    !! call_key args1 kwargs1 = Some v1 ∧
  _cache (_get (_get self args1 kwargs1 w1).1.2 args2 kwargs2 w2).1.2
    !! call_key args2 kwargs2 = Some v2 ∧
  infos (_get (_get self args1 kwargs1 w1).1.2 args2 kwargs2 w2).1.2 =
    (_hits self, (_misses self + 2)%nat, S (S (size (_cache self)))).
Proof.
  intros Hne Hk1 Hk2 Hn1 Hn2 Hb1 Hb2.
  assert (call_key args1 kwargs1 ≠ call_key args2 kwargs2) as Hkeys.
  { intros Heq. apply Hne. by destruct (call_key_inj _ _ _ _ Heq) as [-> ->]. }
  rewrite (_get_miss_return self args1 kwargs1 w1 v1 e1) by (done || by left).
  cbn [fst snd].
  rewrite (_get_miss_return _ args2 kwargs2 w2 v2 e2);
    [|done|left; simpl; by rewrite lookup_insert_ne|done].
  unfold infos. cbn [fst snd stored _cache _hits _misses _cached_func].
  rewrite lookup_insert_ne, !lookup_insert_eq by done.
  rewrite !map_size_insert_None by (done || by rewrite lookup_insert_ne).
  repeat split. do 2 f_equal. lia.
Qed.

Lemma X9_witness :
  _cache (_get (_get (_Cache__init__ Sample.answer None) [VInt 1] [("a", VInt 2); ("b", VInt 3)]
                  (Sample.at_time 0)).1.2
            [VInt 1] [("b", VInt 3); ("a", VInt 2)] (Sample.at_time 1)).1.2
    !! call_key [VInt 1] [("a", VInt 2); ("b", VInt 3)] = Some (VInt 42) ∧
  _cache (_get (_get (_Cache__init__ Sample.answer None) [VInt 1] [("a", VInt 2); ("b", VInt 3)]
                  (Sample.at_time 0)).1.2
            [VInt 1] [("b", VInt 3); ("a", VInt 2)] (Sample.at_time 1)).1.2
    !! call_key [VInt 1] [("b", VInt 3); ("a", VInt 2)] = Some (VInt 42) ∧
  infos (_get (_get (_Cache__init__ Sample.answer None) [VInt 1] [("a", VInt 2); ("b", VInt 3)]
                 (Sample.at_time 0)).1.2
           [VInt 1] [("b", VInt 3); ("a", VInt 2)] (Sample.at_time 1)).1.2 =
    (0, 0 + 2, 2)%nat.
Proof.
  apply (X9_different_arguments_take_different_entries
           (_Cache__init__ Sample.answer None)
           [VInt 1] [VInt 1] [("a", VInt 2); ("b", VInt 3)] [("b", VInt 3); ("a", VInt 2)]
           (Sample.at_time 0) (Sample.at_time 1) (VInt 42) (VInt 42) (MkEnv 0 ∅) (MkEnv 1 ∅));
    try reflexivity.
  discriminate.
Defined.

(** ** Values stored directly *)

(** X10: [_set] under a key that cannot be hashed raises and changes nothing.
    Under a key that can, it returns the value and stores it with the time
    of the clock; the other keys, the two counters and the invariant are
    kept, and the size grows by one exactly when the key is new. *)
Theorem X10_set_stores_without_counting
    (self : _Cache) (key value : pyval) (w : World) :
  if hashable key then
    ∃ self',
      _set self key value w = (Return value, self') ∧
      _cache self' !! key = Some value ∧
      _times self' !! key = Some (now (env w)) ∧
      (∀ k, k ≠ key →
            _cache self' !! k = _cache self !! k ∧ _times self' !! k = _times self !! k) ∧
      _hits self' = _hits self ∧
      _misses self' = _misses self ∧
      size (_cache self') =
        match _cache self !! key with
        | Some _ => size (_cache self)
        | None => S (size (_cache self))
        end ∧
      (keys_inv self → keys_inv self')
  else _set self key value w = (Raise unhashable, self).
Proof.
  destruct (hashable key) eqn:Hk.
  - eexists. split; [by apply _set_hashable|]. simpl.
    rewrite !lookup_insert_eq. repeat split; try done.
    + by rewrite lookup_insert_ne.
    + by rewrite lookup_insert_ne.
    + rewrite map_size_insert. by destruct (_cache self !! key).
    + intros Hinv k. simpl. destruct (decide (key = k)) as [->|Hne].
      * rewrite !lookup_insert_eq. eauto.
      * rewrite !lookup_insert_ne by done. apply Hinv.
  - unfold _set, dict_setitem. by rewrite Hk.
Qed.

(** X11: a value stored by [_set] under the key of a call is what a lookup
    with the arguments of that call returns, as a hit and without a run of the
    computation, as long as the lookup is made within the window. *)
Theorem X11_set_then_get_is_a_hit
    (self : _Cache) (args : list pyval) (kwargs : kwargs_t) (value : pyval) (w w' : World) :
  hashable (call_key args kwargs) = true →
  within_ttl (_duration self) (now (env w)) (now (env w')) →
  ∃ self1,
    _set self (call_key args kwargs) value w = (Return value, self1) ∧
    _get self1 args kwargs w' = (Return value, with_hits self1 (_hits self + 1), w').
Proof.
  intros Hk Hw. eexists. split; [by apply _set_hashable|].
  rewrite (_get_hit _ args kwargs w' value);
    [done|done|simpl; apply lookup_insert_eq|].
  apply (fresh_within_ttl _ _ _ (now (env w))); [done|simpl; apply lookup_insert_eq|done].
Qed.

Lemma X11_witness :
  ∃ self1,
    _set Sample.warm (call_key [VInt 8] []) (VStr "seeded") (Sample.at_time 4) =
      (Return (VStr "seeded"), self1) ∧
    _get self1 [VInt 8] [] (Sample.at_time 13) =
      (Return (VStr "seeded"), with_hits self1 (_hits Sample.warm + 1), Sample.at_time 13).
Proof.
  apply (X11_set_then_get_is_a_hit Sample.warm [VInt 8] [] (VStr "seeded")
           (Sample.at_time 4) (Sample.at_time 13)).
  - reflexivity.
  - right. simpl. lia.
Defined.

(** ** Durations below zero, and lookups after clear *)

(** X12: with a duration below zero a stored value is never fresh once the
    clock has reached the time of the store: every lookup counts a miss and
    runs the computation. *)
Theorem X12_negative_duration_never_hits
    (self : _Cache) (args : list pyval) (kwargs : kwargs_t) (w : World)
    (d t0 : Z) (value : pyval) :
  _duration self = Some d →
  d < 0 →
  hashable (call_key args kwargs) = true →
  _cache self !! call_key args kwargs = Some value →
  _times self !! call_key args kwargs = Some t0 →
  t0 ≤ now (env w) →
  _misses (_get self args kwargs w).1.2 = (_misses self + 1)%nat ∧
  _hits (_get self args kwargs w).1.2 = _hits self ∧
  ∃ tr, trace (_get self args kwargs w).2 =
          trace w ++ Called (__name__ (_cached_func self)) args kwargs :: tr.
Proof.
  intros Hd Hneg Hk Hv Ht Hnow. apply _get_miss_counts; [done|]. right.
  unfold fresh, dict_getitem. rewrite Hd, Hk, Ht.
  destruct (Z.eqb_spec d 0) as [|_]; [lia|]. f_equal. apply Z.ltb_ge. lia.
Qed.

Lemma X12_witness :
  _misses (_get (with_duration Sample.warm (Some (-5))) [VInt 1] [] (Sample.at_time 0)).1.2 =
    (1 + 1)%nat ∧
  _hits (_get (with_duration Sample.warm (Some (-5))) [VInt 1] [] (Sample.at_time 0)).1.2 =
    0%nat ∧
  ∃ tr, trace (_get (with_duration Sample.warm (Some (-5))) [VInt 1] [] (Sample.at_time 0)).2 =
          [] ++ Called "answer" [VInt 1] [] :: tr.
Proof.
  apply (X12_negative_duration_never_hits (with_duration Sample.warm (Some (-5)))
           [VInt 1] [] (Sample.at_time 0) (-5) 0 (VInt 42)).
  - reflexivity.
  - lia.
  - reflexivity.
  - vm_compute. reflexivity.
  - vm_compute. reflexivity.
  - simpl. lia.
Defined.

(** X13: after [clear], a lookup runs the computation again whatever was
    stored and whatever the duration; the counters go on from their values of
    before [clear] and the cache holds the one new value. *)
Theorem X13_lookup_after_clear_recomputes
    (self : _Cache) (args : list pyval) (kwargs : kwargs_t) (w : World)
    (v : pyval) (e : Env) :
  hashable (call_key args kwargs) = true →
  body (_cached_func self) args kwargs (env w) = (Return v, e) →
  ∃ self' w',
    _get (clear self) args kwargs w = (Return v, self', w') ∧
    infos self' = (_hits self, (_misses self + 1)%nat, 1%nat) ∧
    _cache self' !! call_key args kwargs = Some v ∧
    _times self' !! call_key args kwargs = Some (now e) ∧
    trace w' = trace w ++ [Called (__name__ (_cached_func self)) args kwargs].
Proof.
  intros Hk Hb. eexists _, _.
  split; [apply (_get_miss_return (clear self)); [done|by left|done]|].
  unfold infos. simpl. rewrite !lookup_insert_eq.
  rewrite map_size_insert_None by apply lookup_empty.
  by rewrite map_size_empty.
Qed.

Lemma X13_witness :
  ∃ self' w',
    _get (clear Sample.warm) [VInt 1] [] (Sample.at_time 2) = (Return (VInt 42), self', w') ∧
    infos self' = (0, 1 + 1, 1)%nat ∧
    _cache self' !! call_key [VInt 1] [] = Some (VInt 42) ∧
    _times self' !! call_key [VInt 1] [] = Some 2 ∧
    trace w' = [] ++ [Called "answer" [VInt 1] []].
Proof.
  apply (X13_lookup_after_clear_recomputes Sample.warm [VInt 1] [] (Sample.at_time 2)
           (VInt 42) (MkEnv 2 ∅)); reflexivity.
Defined.

(** ** Calls that cannot be cached *)

(** X14: a run of lookups whose key cannot be hashed runs the computation and
    logs a message at every lookup; each lookup gives the outcome of its run,
    and the cache and its counters stay as they were. *)
Theorem X14_unhashable_lookups_always_run
    (self : _Cache) (args : list pyval) (kwargs : kwargs_t) (envs : list Env)
    (tr : list event) :
  hashable (call_key args kwargs) = false →
  ∃ tr',
    lookups self args kwargs envs tr =
      (List.map (λ e, ((body (_cached_func self) args kwargs e).1, _hits self, _misses self))
                envs,
       self, tr') ∧
    calls tr' = (calls tr + length envs)%nat ∧
    warnings tr' = (warnings tr + length envs)%nat.
Proof.
  intros Hk. revert tr. induction envs as [|e envs IH]; intros tr.
  - exists tr. simpl. repeat split; lia.
  - cbn [lookups]. rewrite (_get_unhashable _ _ _ _ Hk).
    unfold call, log_critical. cbn [env trace].
    destruct (body (_cached_func self) args kwargs e) as [r e2] eqn:Hb.
    cbn [trace].
    destruct (IH ((tr ++ [Logged (__name__ (_cached_func self)) (call_key args kwargs)
                                 unhashable]) ++
                  [Called (__name__ (_cached_func self)) args kwargs]))
      as (tr' & Hl & Hc & Hw).
    rewrite Hl. exists tr'. split; [simpl; by rewrite Hb|].
    rewrite Hc, Hw. unfold calls, warnings. rewrite !filter_app, !length_app. simpl.
    split; lia.
Qed.

Lemma X14_witness :
  ∃ tr',
    lookups Sample.warm [VList []] [] [MkEnv 1 ∅; MkEnv 2 ∅; MkEnv 3 ∅] [] =
      ([(Return (VInt 42), 0, 1); (Return (VInt 42), 0, 1); (Return (VInt 42), 0, 1)]%nat,
       Sample.warm, tr') ∧
    calls tr' = (0 + 3)%nat ∧
    warnings tr' = (0 + 3)%nat.
Proof.
  apply (X14_unhashable_lookups_always_run Sample.warm [VList []] []
           [MkEnv 1 ∅; MkEnv 2 ∅; MkEnv 3 ∅] []).
  reflexivity.
Defined.

(** * Further properties of the memoizers *)

(** ** Where the cache of a call lives *)

Lemma _setup_cache_eq (self : memoizer) (obj : positive) (st : State) :
  _setup_cache self obj st =
    (cache_slot self obj st, entry_of self st (cache_slot self obj st),
     match slots st !! cache_slot self obj st with
     | Some _ => st
     | None => with_slot st (cache_slot self obj st)
                         (entry_of self st (cache_slot self obj st))
     end).
Proof.
  unfold _setup_cache, _memoize_setup_cache, entry_of, cache_slot, request_bound.
  destruct (klass self); simpl; by destruct (slots st !! _).
Qed.

Lemma cache_slot_with_world (self : memoizer) (obj : positive) (st : State) (w : World) :
  cache_slot self obj (with_world st w) = cache_slot self obj st.
Proof. reflexivity. Qed.

(** A call through a memoizer is a lookup, with the object put before the
    arguments, in the cache at the address of the call; the cache that the
    lookup leaves is written there, and no other address changes. *)
Lemma __call___eq (self : memoizer) (obj : positive) (args : list pyval)
    (kwargs : kwargs_t) (st : State) :
  __call__ self obj args kwargs st =
    (let '(r, c', w') :=
       _get (entry_of self st (cache_slot self obj st)) (VObj obj :: args) kwargs (world st) in
     (r, MkState w' (<[cache_slot self obj st := c']> (slots st)) (request_cache st))).
Proof.
  unfold __call__. rewrite _setup_cache_eq.
  destruct (slots st !! cache_slot self obj st) eqn:Hs.
  - by destruct (_get _ _ _ _) as [[r c'] w'].
  - cbn [with_slot world].
    destruct (_get _ _ _ _) as [[r c'] w']. unfold with_slot, with_world. simpl.
    by rewrite insert_insert_eq.
Qed.

(** X15: [_setup_cache] creates a cache once. The cache that it returns is
    attached at the address that it gives; a cache found there is returned as
    it is and the state is unchanged; a second resolution returns the same
    cache and changes nothing; and no other address, nor the world, is
    touched. *)
Theorem X15_setup_cache_creates_once (self : memoizer) (obj : positive) (st : State) :
  slots (_setup_cache self obj st).2 !! (_setup_cache self obj st).1.1 =
    Some (_setup_cache self obj st).1.2 ∧
  (∀ c0, slots st !! (_setup_cache self obj st).1.1 = Some c0 →
         _setup_cache self obj st = ((_setup_cache self obj st).1.1, c0, st)) ∧
  _setup_cache self obj (_setup_cache self obj st).2 = _setup_cache self obj st ∧
  world (_setup_cache self obj st).2 = world st ∧
  request_cache (_setup_cache self obj st).2 = request_cache st ∧
  ∀ a', a' ≠ (_setup_cache self obj st).1.1 →
        slots (_setup_cache self obj st).2 !! a' = slots st !! a'.
Proof.
  rewrite _setup_cache_eq. cbn [fst snd]. unfold entry_of.
  destruct (slots st !! cache_slot self obj st) as [c0|] eqn:Hs; cbn [default].
  - repeat split; try done.
    + intros c1 [= <-]. done.
    + rewrite _setup_cache_eq. unfold entry_of. by rewrite Hs.
  - assert (cache_slot self obj
              (with_slot st (cache_slot self obj st)
                 (_Cache__init__ (func self) (duration self))) = cache_slot self obj st)
      as Hslot by reflexivity.
    repeat split; try done.
    + simpl. apply lookup_insert_eq.
    + rewrite _setup_cache_eq, Hslot. unfold entry_of. simpl.
      by rewrite lookup_insert_eq.
    + intros a' Hne. simpl. by rewrite lookup_insert_ne.
Qed.

(** X16: a call through a memoizer changes the cache at the address of the
    call and no other cache attribute; the object [env.request.cache] is the
    same after the call. *)
Theorem X16_call_touches_only_its_slot
    (self : memoizer) (obj : positive) (args : list pyval) (kwargs : kwargs_t)
    (st : State) (a' : slot) :
  a' ≠ cache_slot self obj st →
  slots (__call__ self obj args kwargs st).2 !! a' = slots st !! a' ∧
  request_cache (__call__ self obj args kwargs st).2 = request_cache st.
Proof.
  intros Hne. rewrite __call___eq.
  destruct (_get _ _ _ _) as [[r c'] w']. simpl. by rewrite lookup_insert_ne.
Qed.

Lemma X16_witness :
  slots (__call__ Sample.memo_ident 1 [] [] (Sample.fresh_state 0)).2
    !! (100%positive, "ident_cache"%string) =
    slots (Sample.fresh_state 0) !! (100%positive, "ident_cache"%string) ∧
  request_cache (__call__ Sample.memo_ident 1 [] [] (Sample.fresh_state 0)).2 =
    request_cache (Sample.fresh_state 0).
Proof.
  apply (X16_call_touches_only_its_slot Sample.memo_ident 1 [] [] (Sample.fresh_state 0)
           (100%positive, "ident_cache"%string)).
  discriminate.
Defined.

(** X17: with an instance-bound memoizer the cache of a call is an attribute
    of the object of the call, and a call on one object leaves the cache of
    every other object as it is, its counters included. *)
Theorem X17_instances_have_independent_caches
    (self : memoizer) (o1 o2 : positive) (args : list pyval) (kwargs : kwargs_t)
    (st : State) :
  request_bound (klass self) = false →
  o1 ≠ o2 →
  (_setup_cache self o1 st).1.1 = (o1, cache_objname self) ∧
  slots (__call__ self o1 args kwargs st).2 !! (o1, cache_objname self) =
    Some (_get (entry_of self st (o1, cache_objname self)) (VObj o1 :: args) kwargs
               (world st)).1.2 ∧
  slots (__call__ self o1 args kwargs st).2 !! (o2, cache_objname self) =
    slots st !! (o2, cache_objname self).
Proof.
  intros Hreq Hne.
  assert (cache_slot self o1 st = (o1, cache_objname self)) as Hslot
    by (unfold cache_slot; by rewrite Hreq).
  rewrite _setup_cache_eq, __call___eq, Hslot. cbn [fst snd].
  destruct (_get _ _ _ _) as [[r c'] w']. simpl.
  rewrite lookup_insert_eq, lookup_insert_ne by congruence. done.
Qed.

Lemma X17_witness :
  (_setup_cache Sample.memo_ident 1 (Sample.fresh_state 0)).1.1 =
    (1%positive, "ident_cache"%string) ∧
  slots (__call__ Sample.memo_ident 1 [] [] (Sample.fresh_state 0)).2
    !! (1%positive, "ident_cache"%string) =
    Some (_get (entry_of Sample.memo_ident (Sample.fresh_state 0)
                         (1%positive, "ident_cache"%string))
               [VObj 1] [] (world (Sample.fresh_state 0))).1.2 ∧
  slots (__call__ Sample.memo_ident 1 [] [] (Sample.fresh_state 0)).2
    !! (2%positive, "ident_cache"%string) =
    slots (Sample.fresh_state 0) !! (2%positive, "ident_cache"%string).
Proof.
  apply (X17_instances_have_independent_caches Sample.memo_ident 1 2 [] []
           (Sample.fresh_state 0)).
  - reflexivity.
  - discriminate.
Defined.

(** ** Calls repeated through a memoizer *)

(** X18: a call through a memoizer that misses and whose computation returns
    [v], followed by the same call on the same object made within the window:
    the second call returns [v] from the cache attached by the first, runs
    nothing and leaves the world as it found it, and the cache counts one miss
    and one hit more than before the two calls. *)
Theorem X18_second_call_is_a_hit
    (self : memoizer) (obj : positive) (args : list pyval) (kwargs : kwargs_t)
    (st : State) (v : pyval) (e1 : Env) (w2 : World) :
  hashable (call_key args kwargs) = true →
  misses_at (entry_of self st (cache_slot self obj st))
            (call_key (VObj obj :: args) kwargs) (world st) →
  body (_cached_func (entry_of self st (cache_slot self obj st)))
       (VObj obj :: args) kwargs (env (world st)) = (Return v, e1) →
  within_ttl (_duration (entry_of self st (cache_slot self obj st)))
             (now e1) (now (env w2)) →
  ∃ st1 st2 c2,
    __call__ self obj args kwargs st = (Return v, st1) ∧
    __call__ self obj args kwargs (with_world st1 w2) = (Return v, st2) ∧
    world st2 = w2 ∧
    slots st2 !! cache_slot self obj st = Some c2 ∧
    _hits c2 = (_hits (entry_of self st (cache_slot self obj st)) + 1)%nat ∧
    _misses c2 = (_misses (entry_of self st (cache_slot self obj st)) + 1)%nat ∧
    _cache c2 !! call_key (VObj obj :: args) kwargs = Some v.
Proof.
  intros Hk Hm Hb Hw.
  set (a := cache_slot self obj st) in *.
  set (c0 := entry_of self st a) in *.
  set (key := call_key (VObj obj :: args) kwargs) in *.
  set (c1 := stored c0 key v (now e1)).
  set (st1 := MkState (invoked c0 (VObj obj :: args) kwargs (world st) e1)
                      (<[a := c1]> (slots st)) (request_cache st)).
  assert (__call__ self obj args kwargs st = (Return v, st1)) as Hcall1.
  { rewrite __call___eq. fold a c0.
    by rewrite (_get_miss_return c0 (VObj obj :: args) kwargs (world st) v e1). }
  assert (cache_slot self obj (with_world st1 w2) = a) as Hslot by reflexivity.
  assert (entry_of self (with_world st1 w2) a = c1) as Hentry.
  { unfold entry_of. simpl. by rewrite lookup_insert_eq. }
  exists st1. eexists _, _. split; [done|].
  rewrite __call___eq, Hslot, Hentry. cbn [world with_world].
  rewrite (_get_hit c1 (VObj obj :: args) kwargs w2 v);
    [|done|simpl; apply lookup_insert_eq|].
  - split; [reflexivity|]. simpl. rewrite lookup_insert_eq. repeat split.
    apply lookup_insert_eq.
  - apply (fresh_within_ttl _ _ _ (now e1)); [done|simpl; apply lookup_insert_eq|done].
Qed.

Lemma X18_witness :
  ∃ st1 st2 c2,
    __call__ Sample.memo_ident 4 [VInt 1] [] (Sample.fresh_state 0) = (Return (VInt 4), st1) ∧
    __call__ Sample.memo_ident 4 [VInt 1] [] (with_world st1 (Sample.at_time 50)) =
      (Return (VInt 4), st2) ∧
    world st2 = Sample.at_time 50 ∧
    slots st2 !! (4%positive, "ident_cache"%string) = Some c2 ∧
    _hits c2 = (0 + 1)%nat ∧
    _misses c2 = (0 + 1)%nat ∧
    _cache c2 !! call_key [VObj 4; VInt 1] [] = Some (VInt 4).
Proof.
  apply (X18_second_call_is_a_hit Sample.memo_ident 4 [VInt 1] [] (Sample.fresh_state 0)
           (VInt 4) (MkEnv 0 ∅) (Sample.at_time 50)).
  - reflexivity.
  - left. reflexivity.
  - reflexivity.
  - exact I.
Defined.

(** ** Writes to a property *)

(** X19: a property on which no setter was registered ignores a write: the
    memoizer that a decorator returns has no setter, and [__set__] returns
    with the state as it was, cache attributes and trace included. *)
Theorem X19_write_without_setter_does_nothing
    (deco : decorator) (f : pyfunc) (obj : positive) (value : pyval) (st : State) :
  _set_func (decorate deco f) = None ∧
  __set__ (decorate deco f) obj value st = (Return tt, st).
Proof.
  unfold decorate, __set__. by destruct (deco_class deco).
Qed.

(** X20: when the setter of a property raises, the exception leaves
    [__set__] after that one run of the setter, and no cache attribute is
    created or changed. *)
Theorem X20_failed_setter_seeds_nothing
    (self : memoizer) (set_func : pyfunc) (obj : positive) (value : pyval) (st : State)
    (ex : exn) (e : Env) :
  _set_func self = Some set_func →
  body set_func [VObj obj; value] [] (env (world st)) = (Raise ex, e) →
  ∃ st',
    __set__ self obj value st = (Raise ex, st') ∧
    slots st' = slots st ∧
    env (world st') = e ∧
    trace (world st') =
      trace (world st) ++ [Called (__name__ set_func) [VObj obj; value] []].
Proof.
  intros Hs Hb. unfold __set__, call. rewrite Hs, Hb. by eexists.
Qed.

Lemma X20_witness :
  ∃ st',
    __set__ Sample.prop_ro 1 (VInt 7) (Sample.fresh_state 0) =
      (Raise (Exn ValueError "boom"), st') ∧
    slots st' = slots (Sample.fresh_state 0) ∧
    env (world st') = MkEnv 0 ∅ ∧
    trace (world st') = [] ++ [Called "boom" [VObj 1; VInt 7] []].
Proof.
  apply (X20_failed_setter_seeds_nothing Sample.prop_ro Sample.boom 1 (VInt 7)
           (Sample.fresh_state 0) (Exn ValueError "boom") (MkEnv 0 ∅)); reflexivity.
Defined.

(** X21: when the setter of a property returns, [__set__] has run it once on
    the object and the value, and the cache at the address of the object
    holds the value under [seed_key], with the time that the clock shows after
    the setter; the counters of that cache are those of before. *)
Theorem X21_write_runs_the_setter_and_stores
    (self : memoizer) (set_func : pyfunc) (obj : positive) (value r : pyval) (st : State)
    (e : Env) :
  _set_func self = Some set_func →
  body set_func [VObj obj; value] [] (env (world st)) = (Return r, e) →
  ∃ st' c',
    __set__ self obj value st = (Return tt, st') ∧
    env (world st') = e ∧
    trace (world st') =
      trace (world st) ++ [Called (__name__ set_func) [VObj obj; value] []] ∧
    slots st' !! cache_slot self obj st = Some c' ∧
    _cache c' !! seed_key obj = Some value ∧
    _times c' !! seed_key obj = Some (now e) ∧
    _hits c' = _hits (entry_of self st (cache_slot self obj st)) ∧
    _misses c' = _misses (entry_of self st (cache_slot self obj st)) ∧
    ∀ a', a' ≠ cache_slot self obj st → slots st' !! a' = slots st !! a'.
Proof.
  intros Hs Hb. unfold __set__, call. rewrite Hs, Hb.
  rewrite _setup_cache_eq.
  set (w1 := MkWorld e (trace (world st) ++ [Called (__name__ set_func) [VObj obj; value] []])).
  change (cache_slot self obj (with_world st w1)) with (cache_slot self obj st).
  change (entry_of self (with_world st w1) (cache_slot self obj st))
    with (entry_of self st (cache_slot self obj st)).
  change (slots (with_world st w1)) with (slots st).
  set (a := cache_slot self obj st).
  set (c0 := entry_of self st a).
  assert (hashable (VTuple [VObj obj]) = true) as Hk by reflexivity.
  destruct (slots st !! a) eqn:Hslot.
  - rewrite (_set_hashable c0 _ value _ Hk). eexists _, _. split; [reflexivity|].
    simpl. rewrite !lookup_insert_eq. unfold seed_key.
    repeat split; try done; try apply lookup_insert_eq.
    intros a' Hne. by rewrite lookup_insert_ne.
  - rewrite (_set_hashable c0 _ value _ Hk). eexists _, _. split; [reflexivity|].
    simpl. rewrite !lookup_insert_eq. unfold seed_key.
    repeat split; try done; try apply lookup_insert_eq.
    intros a' Hne. by rewrite !lookup_insert_ne.
Qed.

Lemma X21_witness :
  ∃ st' c',
    __set__ Sample.prop_x 1 (VInt 7) (Sample.fresh_state 3) = (Return tt, st') ∧
    env (world st') = MkEnv 3 (<[(1%positive, "_x"%string) := VInt 7]> ∅) ∧
    trace (world st') = [] ++ [Called "x" [VObj 1; VInt 7] []] ∧
    slots st' !! (1%positive, "x_cache"%string) = Some c' ∧
    _cache c' !! seed_key 1 = Some (VInt 7) ∧
    _times c' !! seed_key 1 = Some 3 ∧
    _hits c' = 0%nat ∧
    _misses c' = 0%nat ∧
    ∀ a', a' ≠ (1%positive, "x_cache"%string) →
          slots st' !! a' = slots (Sample.fresh_state 3) !! a'.
Proof.
  apply (X21_write_runs_the_setter_and_stores Sample.prop_x Sample.set_x 1 (VInt 7) VNone
           (Sample.fresh_state 3) (MkEnv 3 (<[(1%positive, "_x"%string) := VInt 7]> ∅)));
    reflexivity.
Defined.

(** ** A TypeError of the computation, in general *)

(** X22: when the computation raises a [TypeError] in a lookup that misses,
    the lookup logs it as a key that cannot be cached and runs the computation
    a second time, in the environment that the first run left; the outcome of
    the lookup is the outcome of the second run, nothing is stored, and the
    miss is counted. *)
Theorem X22_TypeError_runs_the_computation_twice
    (self : _Cache) (args : list pyval) (kwargs : kwargs_t) (w : World)
    (ex : exn) (e : Env) :
  hashable (call_key args kwargs) = true →
  misses_at self (call_key args kwargs) w →
  body (_cached_func self) args kwargs (env w) = (Raise ex, e) →
  is_TypeError ex = true →
  ∃ self' w',
    _get self args kwargs w = ((body (_cached_func self) args kwargs e).1, self', w') ∧
    env w' = (body (_cached_func self) args kwargs e).2 ∧
    trace w' = trace w ++
      [Called (__name__ (_cached_func self)) args kwargs;
       Logged (__name__ (_cached_func self)) (call_key args kwargs) ex;
       Called (__name__ (_cached_func self)) args kwargs] ∧
    _cache self' = _cache self ∧
    _times self' = _times self ∧
    _hits self' = _hits self ∧
    _misses self' = (_misses self + 1)%nat.
Proof.
  intros Hk Hm Hb Hex.
  rewrite (_get_miss_TypeError self args kwargs w ex e Hk Hm Hb Hex).
  unfold call, log_critical, invoked. cbn [env trace].
  destruct (body (_cached_func self) args kwargs e) as [r e2]. cbn [fst snd].
  eexists _, _. split; [reflexivity|]. simpl. rewrite <- !app_assoc. done.
Qed.

Lemma X22_witness :
  ∃ self' w',
    _get (_Cache__init__ Sample.flaky None) [VObj 1] [] (Sample.at_time 0) =
      (Return (VInt 7), self', w') ∧
    env w' = MkEnv 0 (<[(1%positive, "seen"%string) := VInt 1]> ∅) ∧
    trace w' = [] ++
      [Called "flaky" [VObj 1] [];
       Logged "flaky" (call_key [VObj 1] []) (Exn TypeError "unsupported operand");
       Called "flaky" [VObj 1] []] ∧
    _cache self' = ∅ ∧
    _times self' = ∅ ∧
    _hits self' = 0%nat ∧
    _misses self' = (0 + 1)%nat.
Proof.
  exact (X22_TypeError_runs_the_computation_twice
           (_Cache__init__ Sample.flaky None) [VObj 1] [] (Sample.at_time 0)
           (Exn TypeError "unsupported operand")
           (MkEnv 0 (<[(1%positive, "seen"%string) := VInt 1]> ∅))
           eq_refl (or_introl eq_refl) eq_refl eq_refl).
Defined.

(** ** The counters over a sequence of lookups *)

(** One lookup with a key that can be hashed, in a cache that satisfies the
    invariant. *)
Lemma _get_step (self : _Cache) (args : list pyval) (kwargs : kwargs_t) (w : World) :
  keys_inv self →
  hashable (call_key args kwargs) = true →
  keys_inv (_get self args kwargs w).1.2 ∧
  (_hits (_get self args kwargs w).1.2 + _misses (_get self args kwargs w).1.2 =
     _hits self + _misses self + 1)%nat ∧
  (_misses self ≤ _misses (_get self args kwargs w).1.2)%nat ∧
  (size (_cache (_get self args kwargs w).1.2) + _misses self ≤
     size (_cache self) + _misses (_get self args kwargs w).1.2)%nat.
Proof.
  intros Hinv Hk'.
  destruct (_get_cases self args kwargs w) as
    [(Hk & Hg)|[(Hk & value & Hv & Hg)|[(Hk & Hs & Ht & Hg)|[(Hk & Hm & v & e & Hb & Hg)|
     [(Hk & Hm & ex & e & Hb & Hex & Hg)|(Hk & Hm & ex & e & Hb & Hex & Hg)]]]]];
    rewrite ?Hg; cbn [fst snd stored with_hits with_misses _hits _misses _cache].
  - congruence.
  - repeat split; try done; lia.
  - destruct (Hinv _ Hs) as [t Ht']. by rewrite Ht in Ht'.
  - split; [by apply keys_inv_stored|]. rewrite map_size_insert.
    destruct (_cache self !! call_key args kwargs); simpl; lia.
  - repeat split; try done; lia.
  - repeat split; try done; lia.
Qed.

(** X23: over any sequence of lookups whose keys can be hashed, started in a
    cache that satisfies the invariant, the sum of [hits] and [misses] grows
    by the number of lookups, whatever the computations do; the invariant
    holds at the end, and the size has grown by no more than the number of
    misses counted. *)
Theorem X23_counters_follow_the_lookups
    (reqs : list (list pyval * kwargs_t * Env)) :
  ∀ (self : _Cache) (tr : list event),
    keys_inv self →
    Forall (λ q, hashable (call_key q.1.1 q.1.2) = true) reqs →
    keys_inv (run_lookups self reqs tr).1 ∧
    (_hits (run_lookups self reqs tr).1 + _misses (run_lookups self reqs tr).1 =
       _hits self + _misses self + length reqs)%nat ∧
    (_misses self ≤ _misses (run_lookups self reqs tr).1)%nat ∧
    (size (_cache (run_lookups self reqs tr).1) + _misses self ≤
       size (_cache self) + _misses (run_lookups self reqs tr).1)%nat.
Proof.
  induction reqs as [|[[args kwargs] e] reqs IH]; intros self tr Hinv Hk.
  - simpl. repeat split; try done; lia.
  - apply Forall_cons in Hk as [Hk Hks]. cbn [fst snd] in Hk. cbn [run_lookups].
    destruct (_get_step self args kwargs (MkWorld e tr) Hinv Hk) as (Hi & Hc & Hmono & Hsz).
    destruct (_get self args kwargs (MkWorld e tr)) as [[r self1] w1]. cbn [fst snd] in *.
    destruct (IH self1 (trace w1) Hi Hks) as (Hi' & Hc' & Hmono' & Hsz').
    split; [done|]. cbn [length]. lia.
Qed.

Lemma X23_witness :
  let reqs := [([VInt 1], [], MkEnv 5 ∅); ([VInt 2], [], MkEnv 6 ∅); ([VInt 1], [], MkEnv 30 ∅)] in
  keys_inv (run_lookups Sample.warm reqs []).1 ∧
  (_hits (run_lookups Sample.warm reqs []).1 + _misses (run_lookups Sample.warm reqs []).1 =
     _hits Sample.warm + _misses Sample.warm + length reqs)%nat ∧
  (_misses Sample.warm ≤ _misses (run_lookups Sample.warm reqs []).1)%nat ∧
  (size (_cache (run_lookups Sample.warm reqs []).1) + _misses Sample.warm ≤
     size (_cache Sample.warm) + _misses (run_lookups Sample.warm reqs []).1)%nat.
Proof.
  cbv zeta.
  apply (X23_counters_follow_the_lookups
           [([VInt 1], [], MkEnv 5 ∅); ([VInt 2], [], MkEnv 6 ∅); ([VInt 1], [], MkEnv 30 ∅)]
           Sample.warm []).
  - apply (keys_inv_stored (_Cache__init__ Sample.answer (Some 10))), keys_inv_init.
  - repeat constructor.
Defined.
